(** * gce-gen: the resource-URL parser and the generated GCE adapters

    A shallow embedding of [pkg/cloud/utils.go] (ParseResourceURL) and of the
    Go code that the templates of [genTypes] emit for one service: the mock
    adapter (Get, List, Insert, Delete, custom verbs) and the real adapter
    wired to the rate limiter, the project router, the versioned transport and
    the operation waiter.

    Go strings are byte sequences, so they are [string] (lists of 8-bit
    [ascii]); Go maps keyed by [meta.Key] are [gmap]s; [*T] pointers are
    locations into an explicit heap; a Go [(value, error)] result is a pair of
    options, [None] standing for [nil]. *)

From Stdlib Require Import ZArith Ascii String List Bool Lia.
From stdpp Require Import base option strings gmap.

Local Open Scope string_scope.

(** ** Errors *)

(** The error values the code builds or passes along.  [fmt_Errorf] keeps the
    format and its argument apart, [googleapi_Error] is [*googleapi.Error]
    with its two fields, [external_error] is any error produced outside the
    package (transport, rate limiter, waiter, injected by a test). *)
Inductive error : Type :=
  | fmt_Errorf (format : string) (arg : string)
  | fmt_Errorf0 (msg : string)
  | googleapi_Error (Code : Z) (Message : string)
  | external_error (msg : string).

Definition StatusNotFound : Z := 404.
Definition StatusConflict : Z := 409.

(** ** Package meta: keys *)

Module meta.

(** Modelled from the spec: [meta.Key] and its three constructors (package
    [meta] is not among the sources).  The generated code reads [key.Name],
    [key.Region] and [key.Zone], so a key is a struct of three strings; a
    constructor fills the fields of its variant and leaves the others
    empty. *)
Record Key : Type := mkKey { Name : string; Zone : string; Region : string }.

Definition GlobalKey (name : string) : Key :=
  {| Name := name; Zone := ""; Region := "" |}.
Definition RegionalKey (name region : string) : Key :=
  {| Name := name; Zone := ""; Region := region |}.
Definition ZonalKey (name zone : string) : Key :=
  {| Name := name; Zone := zone; Region := "" |}.

#[global] Instance Key_eq_dec : EqDecision Key.
Proof. solve_decision. Defined.

#[global] Instance Key_countable : Countable Key.
Proof.
  refine (inj_countable'
            (fun k => (Name k, Zone k, Region k))
            (fun t => mkKey t.1.1 t.1.2 t.2) _).
  intros []; reflexivity.
Defined.

(** The locality of a service's keys ([KeyIsGlobal], [KeyIsRegional],
    [KeyIsZonal]: exactly one holds). *)
Inductive KeyType : Type := Global | Regional | Zonal.

(** What the templates of genTypes read from one entry of
    [meta.AllServices] and from one of its custom (non-CRUD) verbs; inside
    [range .Methods] the service's fields are read through the method. *)
Record Method : Type := mkMethod {
  MethodName : string;
  ReturnType : string;
  MockHookName : string
}.

Record ServiceInfo : Type := mkServiceInfo {
  Object : string;
  Service : string;
  Version : string;
  VersionField : string;
  keyType : KeyType;
  MockWrapType : string;
  Methods : list Method
}.

End meta.

(** ** pkg/cloud/utils.go *)

Definition gaPrefix : string := "https://www.googleapis.com/compute/v1/".
Definition alphaPrefix : string := "https://www.googleapis.com/compute/alpha/".
Definition betaPrefix : string := "https://www.googleapis.com/compute/beta/".

Definition allPrefixes : list string := [gaPrefix; alphaPrefix; betaPrefix].

(** ResourceID; [Key] is a [*meta.Key], [None] being the nil pointer. *)
Record ResourceID : Type := mkResourceID {
  ProjectID : string;
  Resource : string;
  Key : option meta.Key
}.

(** [(r *ResourceID).Equal]. *)
Definition Equal (r other : ResourceID) : bool :=
  if negb (ProjectID r =? ProjectID other) || negb (Resource r =? Resource other)
  then false
  else match Key r, Key other with
       | Some k, Some k' => bool_decide (k = k')
       | None, None => true
       | _, _ => false
       end.

(** [strings.HasPrefix]:
    [len(s) >= len(prefix) && s[0:len(prefix)] == prefix]. *)
Definition HasPrefix (s prefix : string) : bool :=
  (String.length prefix <=? String.length s)%nat
  && (substring 0 (String.length prefix) s =? prefix).

(** [s[n:]] for [n <= len(s)]. *)
Definition sliceFrom (n : nat) (s : string) : string :=
  substring n (String.length s - n) s.

(** [strings.Split(s, sep)] for a one-byte separator: the pieces between the
    occurrences of [sep], one more piece than there are occurrences. *)
Fixpoint Split (s : string) (sep : ascii) : list string :=
  match s with
  | EmptyString => [EmptyString]
  | String c rest =>
      if Ascii.eqb c sep then EmptyString :: Split rest sep
      else match Split rest sep with
           | [] => [String c EmptyString]
           | p :: ps => String c p :: ps
           end
  end.

(** [errNotValid := fmt.Errorf("%q is not a valid resource URL", url)]. *)
Definition errNotValid (url : string) : error :=
  fmt_Errorf "%q is not a valid resource URL" url.

(** The loop over [allPrefixes] that removes the "https://..." prefix.  It
    either returns early with the error (left) or leaves the loop with the
    value of [url] (right): trimmed at the first prefix that matches, or
    untouched when none does. *)
Fixpoint stripPrefix (err : error) (url : string) (prefixes : list string)
  : error + string :=
  match prefixes with
  | [] => inr url
  | prefix :: rest =>
      if HasPrefix url prefix then
        if (String.length url <? String.length prefix)%nat then inl err
        else inr (sliceFrom (String.length prefix) url)
      else stripPrefix err url rest
  end.

(** The part of ParseResourceURL after [parts := strings.Split(url, "/")].
    [part i] is [parts[i]]; every use is behind a length test that keeps the
    index in range. *)
Definition matchParts (err : error) (parts : list string)
  : option ResourceID * option error :=
  let part i := nth i parts EmptyString in
  let len := List.length parts in
  if (len <? 2)%nat || negb (part 0%nat =? "projects") then (None, Some err)
  else
    let ret := mkResourceID (part 1%nat) "" None in
    if (len =? 2)%nat then
      (Some (mkResourceID (ProjectID ret) "projects" (Key ret)), None)
    else if (len <? 4)%nat then (None, Some err)
    else if (len =? 4)%nat then
      if part 2%nat =? "regions" then
        (Some (mkResourceID (ProjectID ret) "regions"
                 (Some (meta.GlobalKey (part 3%nat)))), None)
      else if part 2%nat =? "zones" then
        (Some (mkResourceID (ProjectID ret) "zones"
                 (Some (meta.GlobalKey (part 3%nat)))), None)
      else (None, Some err)
    else
      if part 2%nat =? "global" then
        if negb (len =? 5)%nat then (None, Some err)
        else (Some (mkResourceID (ProjectID ret) (part 3%nat)
                      (Some (meta.GlobalKey (part 4%nat)))), None)
      else if part 2%nat =? "regions" then
        if negb (len =? 6)%nat then (None, Some err)
        else (Some (mkResourceID (ProjectID ret) (part 4%nat)
                      (Some (meta.RegionalKey (part 5%nat) (part 3%nat)))), None)
      else if part 2%nat =? "zones" then
        if negb (len =? 6)%nat then (None, Some err)
        else (Some (mkResourceID (ProjectID ret) (part 4%nat)
                      (Some (meta.ZonalKey (part 5%nat) (part 3%nat)))), None)
      else (None, Some err).

(** ParseResourceURL: the pair is the Go result, a ResourceID pointer and an
    error. *)
Definition ParseResourceURL (url : string) : option ResourceID * option error :=
  let err := errNotValid url in
  match stripPrefix err url allPrefixes with
  | inl e => (None, Some e)
  | inr url' => matchParts err (Split url' "/")
  end.

(** *** The accepted locators, as the documentation lists them

    A placeholder ([<proj>], [<region>], [<zone>], [<type>], [<name>]) stands
    for one path segment: any string without a slash. *)

Fixpoint noSlash (s : string) : bool :=
  match s with
  | EmptyString => true
  | String c rest => negb (Ascii.eqb c "/") && noSlash rest
  end.

Inductive Shape : string -> ResourceID -> Prop :=
  | ShapeProject proj :
      noSlash proj = true ->
      Shape ("projects/" +:+ proj)
            (mkResourceID proj "projects" None)
  | ShapeRegion proj region :
      noSlash proj = true -> noSlash region = true ->
      Shape ("projects/" +:+ proj +:+ "/regions/" +:+ region)
            (mkResourceID proj "regions" (Some (meta.GlobalKey region)))
  | ShapeZone proj zone :
      noSlash proj = true -> noSlash zone = true ->
      Shape ("projects/" +:+ proj +:+ "/zones/" +:+ zone)
            (mkResourceID proj "zones" (Some (meta.GlobalKey zone)))
  | ShapeGlobal proj type name :
      noSlash proj = true -> noSlash type = true -> noSlash name = true ->
      Shape ("projects/" +:+ proj +:+ "/global/" +:+ type +:+ "/" +:+ name)
            (mkResourceID proj type (Some (meta.GlobalKey name)))
  | ShapeRegional proj region type name :
      noSlash proj = true -> noSlash region = true ->
      noSlash type = true -> noSlash name = true ->
      Shape ("projects/" +:+ proj +:+ "/regions/" +:+ region
               +:+ "/" +:+ type +:+ "/" +:+ name)
            (mkResourceID proj type (Some (meta.RegionalKey name region)))
  | ShapeZonal proj zone type name :
      noSlash proj = true -> noSlash zone = true ->
      noSlash type = true -> noSlash name = true ->
      Shape ("projects/" +:+ proj +:+ "/zones/" +:+ zone
               +:+ "/" +:+ type +:+ "/" +:+ name)
            (mkResourceID proj type (Some (meta.ZonalKey name zone))).

(** A locator is one of the shapes, bare or behind a known prefix. *)
Definition Accepted (url : string) (r : ResourceID) : Prop :=
  Shape url r \/
  exists prefix path, In prefix allPrefixes /\ url = prefix +:+ path /\ Shape path r.

(** [strings.Join], the inverse of [Split] used in the proofs. *)
Fixpoint Join (parts : list string) (sep : ascii) : string :=
  match parts with
  | [] => EmptyString
  | [p] => p
  | p :: ps => p +:+ String sep (Join ps sep)
  end.

(** ** Objects and pointers *)

(** A resource object ([{{.FQObjectType}}]): its [Name] field, and the other,
    version-specific fields, which the adapters never look at. *)
Record Obj (Fields : Type) : Type := mkObj { Name : string; Other : Fields }.
Arguments mkObj {Fields} _ _.
Arguments Name {Fields} _.
Arguments Other {Fields} _.

Definition loc : Type := positive.

(** A Go pointer: [None] is nil. *)
Definition ptr : Type := option loc.

(** What a custom verb returns: an error alone when its return type is
    Operation, a value pointer and an error otherwise. *)
Inductive CustomResult (Value : Type) : Type :=
  | RetError (err : option error)
  | RetValue (v : option Value) (err : option error).
Arguments RetError {Value} _.
Arguments RetValue {Value} _ _.

(** ** The generated mock adapter *)

Module Mock.
Section Generated.

Context {Fields Value : Type}.

(** The service the template is expanded for. *)
Variable svc : meta.ServiceInfo.

(** How [%v] prints a key (the String method of [meta.Key], which is not
    among the sources). *)
Variable KeyString : meta.Key -> string.

(** The data fields of the mock struct.  An injected error is a Go [error]
    value, so it may itself be nil ([Some None]); [ListError] is a pointer
    to one. *)
Record State : Type := mkState {
  Objects : gmap meta.Key ptr;
  GetError : gmap meta.Key (option error);
  ListError : option (option error);
  InsertError : gmap meta.Key (option error);
  DeleteError : gmap meta.Key (option error)
}.

(** What a call can see and change: the objects behind the pointers and the
    mock's data.  The default logic only touches [mock]; a hook, which gets
    the mock and the caller's pointers, may touch everything. *)
Record World : Type := mkWorld {
  heap : gmap loc (Obj Fields);
  mock : State
}.

(** The hook fields of the mock struct; [None] is a nil func.  They are kept
    apart from [State] because they are functions over it.  The mutex
    [Lock] is left out: calls are modelled one at a time. *)
Record Hooks : Type := mkHooks {
  GetHook : option (meta.Key -> World -> (bool * ptr * option error) * World);
  ListHook : option (World -> (bool * list ptr * option error) * World);
  InsertHook : option (meta.Key -> ptr -> World -> (bool * option error) * World);
  DeleteHook : option (meta.Key -> World -> (bool * option error) * World);
  CustomHook : string -> option (meta.Key -> list string -> World -> CustomResult Value * World)
}.

(** [New{{.MockWrapType}}()]. *)
Definition New : State := mkState ∅ ∅ None ∅ ∅.

Definition NoHooks : Hooks := mkHooks None None None None (fun _ => None).

(** [fmt.Sprintf("{{.MockWrapType}} %v not found", key)]. *)
Definition notFoundMessage (key : meta.Key) : string :=
  meta.MockWrapType svc +:+ " " +:+ KeyString key +:+ " not found".

(** [fmt.Sprintf("{{.MockWrapType}} %v exists", key)]. *)
Definition existsMessage (key : meta.Key) : string :=
  meta.MockWrapType svc +:+ " " +:+ KeyString key +:+ " exists".

(** Get, after the hook. *)
Definition getDefault (key : meta.Key) (m : State) : ptr * option error :=
  match GetError m !! key with
  | Some err => (None, err)
  | None =>
      match Objects m !! key with
      | Some obj => (obj, None)
      | None => (None, Some (googleapi_Error StatusNotFound (notFoundMessage key)))
      end
  end.

Definition Get (h : Hooks) (key : meta.Key) (w : World)
  : (ptr * option error) * World :=
  match GetHook h with
  | Some hook =>
      let '((intercept, obj, err), w') := hook key w in
      if intercept then ((obj, err), w')
      else (getDefault key (mock w'), w')
  | None => (getDefault key (mock w), w)
  end.

(** Which objects List keeps: all of them for a global service, those of the
    given region or zone otherwise. *)
Definition listKeeps (location : string) (key : meta.Key) : bool :=
  match meta.keyType svc with
  | meta.Global => true
  | meta.Regional => meta.Region key =? location
  | meta.Zonal => meta.Zone key =? location
  end.

(** List, after the hook.  Go ranges over the map in an unspecified order;
    the model takes the order of [map_to_list]. *)
Definition listDefault (location : string) (m : State)
  : list ptr * option error :=
  match ListError m with
  | Some err => ([], err)
  | None =>
      (List.map snd
         (List.filter (fun kv => listKeeps location (fst kv))
            (map_to_list (Objects m))),
       None)
  end.

(** [location] is the region or zone argument; the List of a global service
    has none and ignores it.  The hook is not given the location. *)
Definition List (h : Hooks) (location : string) (w : World)
  : (list ptr * option error) * World :=
  match ListHook h with
  | Some hook =>
      let '((intercept, objs, err), w') := hook w in
      if intercept then ((objs, err), w')
      else (listDefault location (mock w'), w')
  | None => (listDefault location (mock w), w)
  end.

(** Insert, after the hook: the error and the mock afterwards. *)
Definition insertDefault (key : meta.Key) (obj : ptr) (m : State)
  : option error * State :=
  match InsertError m !! key with
  | Some err => (err, m)
  | None =>
      match Objects m !! key with
      | Some _ => (Some (googleapi_Error StatusConflict (existsMessage key)), m)
      | None =>
          (None,
           mkState (<[key := obj]> (Objects m)) (GetError m) (ListError m)
                   (InsertError m) (DeleteError m))
      end
  end.

Definition inMock (w : World) (r : option error * State) : option error * World :=
  (fst r, mkWorld (heap w) (snd r)).

Definition Insert (h : Hooks) (key : meta.Key) (obj : ptr) (w : World)
  : option error * World :=
  match InsertHook h with
  | Some hook =>
      let '((intercept, err), w') := hook key obj w in
      if intercept then (err, w')
      else inMock w' (insertDefault key obj (mock w'))
  | None => inMock w (insertDefault key obj (mock w))
  end.

(** Delete, after the hook. *)
Definition deleteDefault (key : meta.Key) (m : State) : option error * State :=
  match DeleteError m !! key with
  | Some err => (err, m)
  | None =>
      match Objects m !! key with
      | None => (Some (googleapi_Error StatusNotFound (notFoundMessage key)), m)
      | Some _ =>
          (None,
           mkState (delete key (Objects m)) (GetError m) (ListError m)
                   (InsertError m) (DeleteError m))
      end
  end.

Definition Delete (h : Hooks) (key : meta.Key) (w : World)
  : option error * World :=
  match DeleteHook h with
  | Some hook =>
      let '((intercept, err), w') := hook key w in
      if intercept then (err, w')
      else inMock w' (deleteDefault key (mock w'))
  | None => inMock w (deleteDefault key (mock w))
  end.

(** A custom verb of the mock; [args] are the verb's own arguments
    ([{{.CallArgs}}]). *)
Definition Custom (h : Hooks) (meth : meta.Method) (key : meta.Key)
  (args : list string) (w : World) : CustomResult Value * World :=
  if meta.ReturnType meth =? "Operation" then
    match CustomHook h (meta.MockHookName meth) with
    | Some hook => hook key args w
    | None => (RetError None, w)
    end
  else
    match CustomHook h (meta.MockHookName meth) with
    | Some hook => hook key args w
    | None => (RetValue None (Some (fmt_Errorf0 (meta.MockHookName meth +:+ " must be set"))), w)
    end.

(** The same hooks with one of them unset. *)
Definition withoutGetHook (h : Hooks) : Hooks :=
  mkHooks None (ListHook h) (InsertHook h) (DeleteHook h) (CustomHook h).
Definition withoutListHook (h : Hooks) : Hooks :=
  mkHooks (GetHook h) None (InsertHook h) (DeleteHook h) (CustomHook h).
Definition withoutInsertHook (h : Hooks) : Hooks :=
  mkHooks (GetHook h) (ListHook h) None (DeleteHook h) (CustomHook h).
Definition withoutDeleteHook (h : Hooks) : Hooks :=
  mkHooks (GetHook h) (ListHook h) (InsertHook h) None (CustomHook h).

End Generated.
End Mock.

(** ** The generated real adapter *)

(** The descriptor handed to the rate limiter. *)
Record RateLimitKey : Type := mkRateLimitKey {
  Operation : string;
  Version : string;
  Target : string
}.

(** The handle of an asynchronous operation, as the transport returns it. *)
Definition OperationHandle : Type := string.

Module GCE.
Section Generated.

Context {Fields Value : Type}.

Variable svc : meta.ServiceInfo.

(** An argument of a transport call: a string, or the object a pointer
    argument points to when the call is made. *)
Inductive Arg : Type :=
  | ArgString (s : string)
  | ArgObject (o : Obj Fields).

(** [g.s.{{.VersionField}}.{{.Service}}.<method>(<args>)]. *)
Record Call : Type := mkCall {
  callVersionField : string;
  callService : string;
  callMethod : string;
  callArgs : list Arg
}.

(** What the adapter asks of its collaborators, in order. *)
Inductive Event : Type :=
  | Accept (rk : RateLimitKey)
  | ProjectID (version service : string)
  | Do (c : Call)
  | Pages (c : Call)
  | WaitForCompletion (op : option OperationHandle).

(** The collaborators behind [g.s] (the Service struct: rate limiter, project
    router, versioned transports, operation waiter).  None of them is among
    the sources; each is an oracle that answers from the requests made so
    far and the request at hand.  [accept] is the outcome of the rate
    limiter's Accept: [Some e] when it refuses.  The objects a transport
    returns are freshly allocated and are given by their value.  The context
    argument is left out. *)
Record Service : Type := mkService {
  accept : list Event -> RateLimitKey -> option error;
  projectID : list Event -> string -> string -> string;
  doObject : list Event -> Call -> option (Obj Fields) * option error;
  doValue : list Event -> Call -> option Value * option error;
  doOperation : list Event -> Call -> option OperationHandle * option error;
  pages : list Event -> Call -> list (list (Obj Fields)) * option error;
  waitForCompletion : list Event -> option OperationHandle -> option error
}.

Variable s : Service.

(** The caller's objects and the requests made so far. *)
Record World : Type := mkWorld {
  heap : gmap loc (Obj Fields);
  trace : list Event
}.

(** A call returns a result and a world, or panics (nil dereference). *)
Inductive Outcome (A : Type) : Type :=
  | Returns (a : A) (w : World)
  | Panics (w : World).
Arguments Returns {A} _ _.
Arguments Panics {A} _.

Definition M (A : Type) : Type := World -> Outcome A.

Definition ret {A : Type} (a : A) : M A := fun w => Returns a w.

Definition bind {A B : Type} (c : M A) (k : A -> M B) : M B :=
  fun w => match c w with
           | Returns a w' => k a w'
           | Panics w' => Panics w'
           end.

Notation "x <- c ;; k" := (bind c (fun x => k))
  (at level 100, c at next level, right associativity).

Definition log (e : Event) (w : World) : World :=
  mkWorld (heap w) (trace w ++ [e]).

(** [g.s.RateLimiter.Accept(ctx, rk)]. *)
Definition RateLimiter_Accept (rk : RateLimitKey) : M (option error) :=
  fun w => Returns (accept s (trace w) rk) (log (Accept rk) w).

(** [g.s.ProjectRouter.ProjectID(ctx, version, service)]. *)
Definition ProjectRouter_ProjectID (version service : string) : M string :=
  fun w => Returns (projectID s (trace w) version service)
                   (log (ProjectID version service) w).

(** [call.Do()], for a call that yields an object, a plain value or an
    operation handle, and [call.Pages(ctx, f)]. *)
Definition call_DoObject (c : Call) : M (option (Obj Fields) * option error) :=
  fun w => Returns (doObject s (trace w) c) (log (Do c) w).
Definition call_DoValue (c : Call) : M (option Value * option error) :=
  fun w => Returns (doValue s (trace w) c) (log (Do c) w).
Definition call_DoOperation (c : Call) : M (option OperationHandle * option error) :=
  fun w => Returns (doOperation s (trace w) c) (log (Do c) w).
Definition call_Pages (c : Call) : M (list (list (Obj Fields)) * option error) :=
  fun w => Returns (pages s (trace w) c) (log (Pages c) w).

(** [g.s.WaitForCompletion(ctx, op)]. *)
Definition s_WaitForCompletion (op : option OperationHandle) : M (option error) :=
  fun w => Returns (waitForCompletion s (trace w) op) (log (WaitForCompletion op) w).

(** [obj.Name = name]. *)
Definition setName (obj : ptr) (name : string) : M unit :=
  fun w => match obj ≫= (fun l => heap w !! l) with
           | Some o =>
               match obj with
               | Some l => Returns tt (mkWorld (<[l := mkObj name (Other o)]> (heap w)) (trace w))
               | None => Panics w
               end
           | None => Panics w
           end.

(** Reading the object behind [obj] when the call is made. *)
Definition load (obj : ptr) : M (Obj Fields) :=
  fun w => match obj ≫= (fun l => heap w !! l) with
           | Some o => Returns o w
           | None => Panics w
           end.

Definition rateLimitKey (operation : string) : RateLimitKey :=
  mkRateLimitKey operation (meta.Version svc) (meta.Object svc).

Definition newCall (method : string) (args : list Arg) : Call :=
  mkCall (meta.VersionField svc) (meta.Service svc) method args.

(** The location argument a key contributes: none, [key.Region] or
    [key.Zone]. *)
Definition keyLocation (key : meta.Key) : list Arg :=
  match meta.keyType svc with
  | meta.Global => []
  | meta.Regional => [ArgString (meta.Region key)]
  | meta.Zonal => [ArgString (meta.Zone key)]
  end.

Definition Get (key : meta.Key) : M (option (Obj Fields) * option error) :=
  let rk := rateLimitKey "Get" in
  _ <- RateLimiter_Accept rk ;;
  projectID <- ProjectRouter_ProjectID (meta.Version svc) (meta.Service svc) ;;
  let call := newCall "Get"
                (ArgString projectID :: keyLocation key ++ [ArgString (meta.Name key)]) in
  call_DoObject call.

(** [location] is the region or zone argument; the List of a global service
    has none. *)
Definition List (location : string) : M (list (Obj Fields) * option error) :=
  let rk := rateLimitKey "List" in
  _ <- RateLimiter_Accept rk ;;
  projectID <- ProjectRouter_ProjectID (meta.Version svc) (meta.Service svc) ;;
  let call := newCall "List"
                (ArgString projectID ::
                 match meta.keyType svc with
                 | meta.Global => []
                 | _ => [ArgString location]
                 end) in
  r <- call_Pages call ;;
  let '(items, err) := r in
  match err with
  | Some e => ret ([], Some e)
  | None => ret (concat items, None)
  end.

Definition Insert (key : meta.Key) (obj : ptr) : M (option error) :=
  let rk := rateLimitKey "Insert" in
  _ <- RateLimiter_Accept rk ;;
  projectID <- ProjectRouter_ProjectID (meta.Version svc) (meta.Service svc) ;;
  _ <- setName obj (meta.Name key) ;;
  o <- load obj ;;
  let call := newCall "Insert"
                (ArgString projectID :: keyLocation key ++ [ArgObject o]) in
  r <- call_DoOperation call ;;
  let '(op, err) := r in
  match err with
  | Some e => ret (Some e)
  | None => s_WaitForCompletion op
  end.

Definition Delete (key : meta.Key) : M (option error) :=
  let rk := rateLimitKey "Delete" in
  _ <- RateLimiter_Accept rk ;;
  projectID <- ProjectRouter_ProjectID (meta.Version svc) (meta.Service svc) ;;
  let call := newCall "Delete"
                (ArgString projectID :: keyLocation key ++ [ArgString (meta.Name key)]) in
  r <- call_DoOperation call ;;
  let '(op, err) := r in
  match err with
  | Some e => ret (Some e)
  | None => s_WaitForCompletion op
  end.

(** A custom verb; [args] are the verb's own arguments ([{{.CallArgs}}]). *)
Definition Custom (meth : meta.Method) (key : meta.Key) (args : list string)
  : M (CustomResult Value) :=
  let rk := rateLimitKey (meta.MethodName meth) in
  _ <- RateLimiter_Accept rk ;;
  projectID <- ProjectRouter_ProjectID (meta.Version svc) (meta.Service svc) ;;
  let call := newCall (meta.MethodName meth)
                (ArgString projectID :: keyLocation key
                   ++ ArgString (meta.Name key) :: List.map ArgString args) in
  if meta.ReturnType meth =? "Operation" then
    r <- call_DoOperation call ;;
  let '(op, err) := r in
    match err with
    | Some e => ret (RetError (Some e))
    | None => e <- s_WaitForCompletion op ;; ret (RetError e)
    end
  else
    r <- call_DoValue call ;;
  let '(v, err) := r in
    ret (RetValue v err).

End Generated.

Arguments Returns {Fields A} _ _.
Arguments Panics {Fields A} _.

Section Observations.

Context {Fields Value : Type}.

(** The world a call ends in. *)
Definition worldOf {A : Type} (out : Outcome (Fields := Fields) A) : World :=
  match out with
  | Returns _ w => w
  | Panics w => w
  end.

Definition returned {A : Type} (out : Outcome (Fields := Fields) A) : bool :=
  match out with
  | Returns _ _ => true
  | Panics _ => false
  end.

(** The same collaborators behind another rate limiter. *)
Definition withRateLimiter
  (a : list (Event (Fields := Fields)) -> RateLimitKey -> option error)
  (s : Service (Fields := Fields) (Value := Value)) : Service :=
  mkService a (projectID s) (doObject s) (doValue s) (doOperation s)
            (pages s) (waitForCompletion s).

Definition isCall (e : Event (Fields := Fields)) : bool :=
  match e with
  | Do _ | Pages _ => true
  | _ => false
  end.

(** An operation [m] is gated under the name [operation]: whatever the
    collaborators and the world, the first thing it asks is the rate
    limiter's Accept with the descriptor of the operation; when it returns,
    it has issued an underlying call after that; and nothing of what it does
    depends on what Accept answered. *)
Definition gated {A : Type} (svc : meta.ServiceInfo) (operation : string)
  (m : Service (Fields := Fields) (Value := Value) -> M A) : Prop :=
  forall s w,
    (exists rest : list Event,
       trace (worldOf (m s w))
       = (trace w ++ Accept (rateLimitKey svc operation) :: rest)%list /\
       (returned (m s w) = true -> existsb isCall rest = true)) /\
    (forall a, m (withRateLimiter a s) w = m s w).

End Observations.

End GCE.

(** ** A sample service and sample worlds *)

Module Sample.

Definition GetHealth : meta.Method :=
  meta.mkMethod "GetHealth" "BackendServiceGroupHealth" "GetHealthHook".
Definition Update : meta.Method :=
  meta.mkMethod "Update" "Operation" "UpdateHook".

Definition backendServices : meta.ServiceInfo :=
  meta.mkServiceInfo "BackendService" "BackendServices" "ga" "GA"
    meta.Global "MockBackendServices" [GetHealth; Update].

Definition addresses : meta.ServiceInfo :=
  meta.mkServiceInfo "Address" "Addresses" "ga" "GA"
    meta.Regional "MockAddresses" [].

Definition keyString (k : meta.Key) : string :=
  meta.Region k +:+ meta.Zone k +:+ "/" +:+ meta.Name k.

Definition key : meta.Key := meta.RegionalKey "my-address" "us-central1".

Definition first : Obj string := mkObj "my-address" "10.0.0.1".
Definition second : Obj string := mkObj "other-name" "10.0.0.2".

Definition objects : gmap loc (Obj string) :=
  <[1%positive := first]> (<[2%positive := second]> ∅).

(** A fresh mock, and one that already holds [first] under [key]. *)
Definition fresh : Mock.World (Fields := string) :=
  Mock.mkWorld objects Mock.New.
Definition taken : Mock.World (Fields := string) :=
  Mock.mkWorld objects
    (Mock.mkState (<[key := Some 1%positive]> ∅) ∅ None ∅ ∅).

Definition noHooks : Mock.Hooks (Fields := string) (Value := string) :=
  Mock.NoHooks.

(** A Get hook that answers every call itself, with object 2. *)
Definition answering : Mock.Hooks (Fields := string) (Value := string) :=
  Mock.mkHooks (Some (fun _ w => ((true, Some 2%positive, None), w)))
               None None None (fun _ => None).

(** Collaborators whose rate limiter refuses everything, over a transport
    that answers every call with success. *)
Definition throttled : error := external_error "Throttled".

Definition throttling : GCE.Service (Fields := string) (Value := string) :=
  GCE.mkService
    (fun _ _ => Some throttled)
    (fun _ _ _ => "some-gce-project")
    (fun _ _ => (Some first, None))
    (fun _ _ => (Some "HEALTHY", None))
    (fun _ _ => (Some "operation-1", None))
    (fun _ _ => ([[first]; [second]], None))
    (fun _ _ => None).

(** Collaborators whose transport fails every call. *)
Definition failing : GCE.Service (Fields := string) (Value := string) :=
  GCE.mkService
    (fun _ _ => None)
    (fun _ _ _ => "some-gce-project")
    (fun _ _ => (None, Some (external_error "boom")))
    (fun _ _ => (None, Some (external_error "boom")))
    (fun _ _ => (None, Some (external_error "boom")))
    (fun _ _ => ([], Some (external_error "boom")))
    (fun _ _ => None).

Definition start : GCE.World (Fields := string) := GCE.mkWorld objects [].

End Sample.

(** ** More sample worlds *)

Module Scenario.

Definition boom : error := external_error "injected".

Definition other : meta.Key := meta.RegionalKey "other-address" "europe-west1".

(** A mock that holds [first] under [key] and has an error injected for
    every operation on [key]; the one for Insert is a nil error. *)
Definition broken : Mock.World (Fields := string) :=
  Mock.mkWorld Sample.objects
    (Mock.mkState (<[Sample.key := Some 1%positive]> ∅)
       (<[Sample.key := Some boom]> ∅)
       (Some (Some boom))
       (<[Sample.key := None]> ∅)
       (<[Sample.key := Some boom]> ∅)).

(** A mock that holds two addresses, in two regions. *)
Definition two : Mock.World (Fields := string) :=
  Mock.mkWorld Sample.objects
    (Mock.mkState (<[Sample.key := Some 1%positive]> (<[other := Some 2%positive]> ∅))
       ∅ None ∅ ∅).

End Scenario.

(** ** The conversations of the real adapter *)

Section Conversations.

Context {Fields Value : Type}.

(** What one operation may ask of its collaborators, from first to last: the
    rate limiter once, the project router once, then one transport call, then
    for an asynchronous call the waiter once; or, when it panics, the first
    two only.  The flag tells whether the operation returned. *)
Inductive Conversation (svc : meta.ServiceInfo) (operation : string)
  : bool -> list (GCE.Event (Fields := Fields)) -> Prop :=
  | ConversationCut :
      Conversation svc operation false
        [GCE.Accept (GCE.rateLimitKey svc operation);
         GCE.ProjectID (meta.Version svc) (meta.Service svc)]
  | ConversationCall c :
      GCE.isCall c = true ->
      Conversation svc operation true
        [GCE.Accept (GCE.rateLimitKey svc operation);
         GCE.ProjectID (meta.Version svc) (meta.Service svc);
         c]
  | ConversationWait c op :
      Conversation svc operation true
        [GCE.Accept (GCE.rateLimitKey svc operation);
         GCE.ProjectID (meta.Version svc) (meta.Service svc);
         GCE.Do c;
         GCE.WaitForCompletion op].

Definition converses {A : Type} (svc : meta.ServiceInfo) (operation : string)
  (m : GCE.Service (Fields := Fields) (Value := Value) -> GCE.M A) : Prop :=
  forall s w,
    exists evs,
      GCE.trace (GCE.worldOf (m s w)) = (GCE.trace w ++ evs)%list /\
      Conversation svc operation (GCE.returned (m s w)) evs.

End Conversations.

(** ** The generator: genHeader *)

Module gen.

(** Modelled from the spec: the three API versions, [meta.VersionGA],
    [meta.VersionAlpha] and [meta.VersionBeta] (package [meta] is not among
    the sources), as the strings the spec gives for a version. *)
Definition VersionGA : string := "ga".
Definition VersionAlpha : string := "alpha".
Definition VersionBeta : string := "beta".

Definition dq : string := String "034" EmptyString.
Definition tab : string := String "009" EmptyString.
Definition nl : string := String "010" EmptyString.

(** A raw string literal that ends with a line break, by its lines. *)
Fixpoint text (lines : list string) : string :=
  match lines with
  | [] => EmptyString
  | l :: rest => l +:+ nl +:+ text rest
  end.

(** The literal that opens the generated file: the licence, the package
    clause and the imports that do not depend on the services. *)
Definition fileHeader : string :=
  text
  ["/*";
   "Copyright 2017 The Kubernetes Authors.";
   EmptyString;
   "Licensed under the Apache License, Version 2.0 (the " +:+ dq +:+ "License" +:+ dq +:+ ");";
   "you may not use this file except in compliance with the License.";
   "You may obtain a copy of the License at";
   EmptyString;
   "    http://www.apache.org/licenses/LICENSE-2.0";
   EmptyString;
   "Unless required by applicable law or agreed to in writing, software";
   "distributed under the License is distributed on an " +:+ dq +:+ "AS IS" +:+ dq +:+ " BASIS,";
   "WITHOUT WARRANTIES OR CONDITIONS OF ANY KIND, either express or implied.";
   "See the License for the specific language governing permissions and";
   "limitations under the License.";
   "*/";
   EmptyString;
   "// This file was generated by " +:+ dq +:+ "go run gen/main.go > gen.go" +:+ dq +:+ ". Do not edit";
   "// directly.";
   EmptyString;
   "package cloud";
   EmptyString;
   "import (";
   tab +:+ dq +:+ "context" +:+ dq;
   tab +:+ dq +:+ "fmt" +:+ dq;
   tab +:+ dq +:+ "net/http" +:+ dq;
   tab +:+ dq +:+ "sync" +:+ dq;
   EmptyString;
   tab +:+ dq +:+ "google.golang.org/api/googleapi" +:+ dq;
   tab +:+ dq +:+ "github.com/bowei/gce-gen/pkg/cloud/meta" +:+ dq].

Definition alphaImport : string :=
  "alpha " +:+ dq +:+ "google.golang.org/api/compute/v0.alpha" +:+ dq.
Definition betaImport : string :=
  "beta " +:+ dq +:+ "google.golang.org/api/compute/v0.beta" +:+ dq.
Definition gaImport : string :=
  "ga " +:+ dq +:+ "google.golang.org/api/compute/v1" +:+ dq.

(** [fmt.Fprintln(wr, s)]: the writer is the list of the writes made to it,
    each the text and a line break. *)
Definition Fprintln (wr : list string) (s : string) : list string :=
  (wr ++ [s +:+ nl])%list.

(** The three flags after one turn of the loop over the services. *)
Definition seen (flags : bool * bool * bool) (s : meta.ServiceInfo)
  : bool * bool * bool :=
  let '(hasGA, hasAlpha, hasBeta) := flags in
  if meta.Version s =? VersionGA then (true, hasAlpha, hasBeta)
  else if meta.Version s =? VersionAlpha then (hasGA, true, hasBeta)
  else if meta.Version s =? VersionBeta then (hasGA, hasAlpha, true)
  else (hasGA, hasAlpha, hasBeta).

(** genHeader, over the list [meta.AllServices]. *)
Definition genHeader (AllServices : list meta.ServiceInfo) (wr : list string)
  : list string :=
  let '(hasGA, hasAlpha, hasBeta) :=
    fold_left seen AllServices (false, false, false) in
  let wr := Fprintln wr fileHeader in
  let wr := if hasAlpha then Fprintln wr alphaImport else wr in
  let wr := if hasBeta then Fprintln wr betaImport else wr in
  let wr := if hasGA then Fprintln wr gaImport else wr in
  Fprintln wr ")".

End gen.

(** * Properties *)

(** ** Strings *)

Lemma substring_0_String (n : nat) (c : ascii) (s : string) :
  substring 0 (S n) (String c s) = String c (substring 0 n s).
Proof. reflexivity. Qed.

Lemma HasPrefix_prefix (s p : string) : HasPrefix s p = String.prefix p s.
Proof.
  unfold HasPrefix. revert s.
  induction p as [|a p IH]; intros s.
  - destruct s; reflexivity.
  - destruct s as [|b s]; [reflexivity|].
    cbn [String.length]. rewrite substring_0_String.
    cbn [String.prefix String.eqb].
    change (S (String.length p) <=? S (String.length s))%nat
      with (String.length p <=? String.length s)%nat.
    destruct (ascii_dec a b) as [->|Hab].
    + rewrite Ascii.eqb_refl. apply IH.
    + apply Ascii.eqb_neq in Hab. rewrite Ascii.eqb_sym, Hab.
      apply andb_false_r.
Qed.

Lemma HasPrefix_length (s p : string) :
  HasPrefix s p = true -> (String.length p <= String.length s)%nat.
Proof.
  unfold HasPrefix. intros H. apply andb_true_iff in H as [H _].
  apply Nat.leb_le, H.
Qed.

Lemma substring_all (s : string) : substring 0 (String.length s) s = s.
Proof. induction s as [|c s IH]; [reflexivity|]. cbn. now rewrite IH. Qed.

Lemma append_String (c : ascii) (p t : string) :
  String c p +:+ t = String c (p +:+ t).
Proof. reflexivity. Qed.

Lemma append_Empty (t : string) : EmptyString +:+ t = t.
Proof. reflexivity. Qed.

Lemma sliceFrom_app (p t : string) : sliceFrom (String.length p) (p +:+ t) = t.
Proof.
  unfold sliceFrom. induction p as [|c p IH].
  - rewrite append_Empty. cbn [String.length]. rewrite Nat.sub_0_r.
    apply substring_all.
  - rewrite append_String. cbn [String.length substring Nat.sub]. apply IH.
Qed.

Lemma HasPrefix_app (p t : string) : HasPrefix (p +:+ t) p = true.
Proof.
  rewrite HasPrefix_prefix. induction p as [|c p IH].
  - destruct t; reflexivity.
  - rewrite append_String. cbn [String.prefix].
    destruct (ascii_dec c c); [apply IH | congruence].
Qed.

Lemma HasPrefix_split (s p : string) :
  HasPrefix s p = true -> s = p +:+ sliceFrom (String.length p) s.
Proof.
  rewrite HasPrefix_prefix. revert s.
  induction p as [|a p IH]; intros s H.
  - rewrite append_Empty. unfold sliceFrom. cbn [String.length].
    rewrite Nat.sub_0_r. symmetry. apply substring_all.
  - destruct s as [|b s]; cbn [String.prefix] in H; [discriminate|].
    destruct (ascii_dec a b) as [->|]; [|discriminate].
    rewrite append_String. f_equal. apply IH, H.
Qed.

(** ** Split and Join *)

Lemma Split_nonempty (s : string) (sep : ascii) : Split s sep <> [].
Proof.
  induction s as [|c s IH]; cbn; [discriminate|].
  destruct (Ascii.eqb c sep); [discriminate|].
  destruct (Split s sep); discriminate.
Qed.

Lemma Split_noSlash (s : string) : noSlash s = true -> Split s "/" = [s].
Proof.
  induction s as [|c s IH]; cbn; [reflexivity|].
  intros H. apply andb_true_iff in H as [Hc Hs].
  apply negb_true_iff in Hc. rewrite Hc, (IH Hs). reflexivity.
Qed.

Lemma Split_segment (p rest : string) :
  noSlash p = true ->
  Split (p +:+ String "/" rest) "/" = p :: Split rest "/".
Proof.
  induction p as [|c p IH]; [reflexivity|].
  rewrite append_String. cbn [Split noSlash].
  intros H. apply andb_true_iff in H as [Hc Hp].
  apply negb_true_iff in Hc. rewrite Hc, (IH Hp). reflexivity.
Qed.

Lemma Split_parts_noSlash (s : string) :
  Forall (fun p => noSlash p = true) (Split s "/").
Proof.
  induction s as [|c s IH]; cbn [Split].
  - constructor; [reflexivity | constructor].
  - destruct (Ascii.eqb c "/") eqn:Hc.
    + constructor; [reflexivity | exact IH].
    + destruct (Split s "/") as [|p ps].
      { constructor; [cbn [noSlash]; now rewrite Hc | constructor]. }
      apply Forall_cons in IH as [Hp Hps].
      constructor; [|exact Hps]. cbn [noSlash]. now rewrite Hc, Hp.
Qed.

Lemma Join_cons (p q : string) (qs : list string) (sep : ascii) :
  Join (p :: q :: qs) sep = p +:+ String sep (Join (q :: qs) sep).
Proof. reflexivity. Qed.

Lemma Join_Split (s : string) : Join (Split s "/") "/" = s.
Proof.
  induction s as [|c s IH]; [reflexivity|]. cbn [Split].
  destruct (Ascii.eqb c "/") eqn:Hc.
  - apply Ascii.eqb_eq in Hc as ->.
    destruct (Split s "/") as [|p ps] eqn:Hs.
    + now apply Split_nonempty in Hs.
    + rewrite Join_cons, append_Empty, IH. reflexivity.
  - destruct (Split s "/") as [|p [|q qs]] eqn:Hs.
    + now apply Split_nonempty in Hs.
    + change (Join [p] "/") with p in IH. subst p. reflexivity.
    + rewrite Join_cons in *. rewrite append_String, IH. reflexivity.
Qed.

(** ** ParseResourceURL *)

Lemma stripPrefix_cases (err : error) (url : string) (prefixes : list string) :
  exists url',
    stripPrefix err url prefixes = inr url' /\
    (url' = url \/ exists p, In p prefixes /\ url = p +:+ url').
Proof.
  induction prefixes as [|p ps IH]; cbn [stripPrefix].
  - exists url. split; [reflexivity | now left].
  - destruct (HasPrefix url p) eqn:Hp.
    + pose proof (HasPrefix_length _ _ Hp) as Hlen.
      apply Nat.ltb_ge in Hlen. rewrite Hlen.
      exists (sliceFrom (String.length p) url). split; [reflexivity|].
      right. exists p. split; [now left | now apply HasPrefix_split].
    + destruct IH as (url' & -> & [->|(q & Hq & ->)]).
      * exists url. split; [reflexivity | now left].
      * exists url'. split; [reflexivity|].
        right. exists q. split; [now right | reflexivity].
Qed.

Lemma stripPrefix_bare (err : error) (x : string) :
  stripPrefix err ("projects/" +:+ x) allPrefixes = inr ("projects/" +:+ x).
Proof.
  unfold allPrefixes. cbn [stripPrefix].
  rewrite !HasPrefix_prefix. reflexivity.
Qed.

Lemma stripPrefix_known (err : error) (p path : string) :
  In p allPrefixes -> stripPrefix err (p +:+ path) allPrefixes = inr path.
Proof.
  assert (Hlen : forall q,
    (String.length (q +:+ path) <? String.length q)%nat = false).
  { intros q. apply Nat.ltb_ge, HasPrefix_length, HasPrefix_app. }
  unfold allPrefixes. intros [<-|[<-|[<-|[]]]]; cbn [stripPrefix].
  - rewrite (HasPrefix_app gaPrefix path), Hlen, sliceFrom_app. reflexivity.
  - replace (HasPrefix (alphaPrefix +:+ path) gaPrefix) with false
      by (rewrite HasPrefix_prefix; reflexivity).
    rewrite (HasPrefix_app alphaPrefix path), Hlen, sliceFrom_app. reflexivity.
  - replace (HasPrefix (betaPrefix +:+ path) gaPrefix) with false
      by (rewrite HasPrefix_prefix; reflexivity).
    replace (HasPrefix (betaPrefix +:+ path) alphaPrefix) with false
      by (rewrite HasPrefix_prefix; reflexivity).
    rewrite (HasPrefix_app betaPrefix path), Hlen, sliceFrom_app. reflexivity.
Qed.

Lemma Shape_projects (url : string) (r : ResourceID) :
  Shape url r -> exists x, url = "projects/" +:+ x.
Proof. intros []; eexists; reflexivity. Qed.

Ltac split_segments :=
  repeat (rewrite Split_segment by (assumption || reflexivity));
  rewrite Split_noSlash by assumption.

Lemma Shape_matchParts (err : error) (url : string) (r : ResourceID) :
  Shape url r -> matchParts err (Split url "/") = (Some r, None).
Proof.
  intros [proj Hp
         |proj region Hp Hr
         |proj zone Hp Hz
         |proj type name Hp Ht Hn
         |proj region type name Hp Hr Ht Hn
         |proj zone type name Hp Hz Ht Hn].
  - change ("projects/" +:+ proj) with ("projects" +:+ String "/" proj).
    split_segments. reflexivity.
  - change ("projects/" +:+ proj +:+ "/regions/" +:+ region)
      with ("projects" +:+ String "/" (proj +:+ String "/"
              ("regions" +:+ String "/" region))).
    split_segments. reflexivity.
  - change ("projects/" +:+ proj +:+ "/zones/" +:+ zone)
      with ("projects" +:+ String "/" (proj +:+ String "/"
              ("zones" +:+ String "/" zone))).
    split_segments. reflexivity.
  - change ("projects/" +:+ proj +:+ "/global/" +:+ type +:+ "/" +:+ name)
      with ("projects" +:+ String "/" (proj +:+ String "/"
              ("global" +:+ String "/" (type +:+ String "/" name)))).
    split_segments. reflexivity.
  - change ("projects/" +:+ proj +:+ "/regions/" +:+ region
              +:+ "/" +:+ type +:+ "/" +:+ name)
      with ("projects" +:+ String "/" (proj +:+ String "/"
              ("regions" +:+ String "/" (region +:+ String "/"
                 (type +:+ String "/" name))))).
    split_segments. reflexivity.
  - change ("projects/" +:+ proj +:+ "/zones/" +:+ zone
              +:+ "/" +:+ type +:+ "/" +:+ name)
      with ("projects" +:+ String "/" (proj +:+ String "/"
              ("zones" +:+ String "/" (zone +:+ String "/"
                 (type +:+ String "/" name))))).
    split_segments. reflexivity.
Qed.

Lemma Accepted_parse (url : string) (r : ResourceID) :
  Accepted url r -> ParseResourceURL url = (Some r, None).
Proof.
  unfold ParseResourceURL.
  intros [Hs | (prefix & path & Hin & -> & Hs)].
  - destruct (Shape_projects _ _ Hs) as [x ->].
    rewrite stripPrefix_bare. now apply Shape_matchParts.
  - rewrite (stripPrefix_known _ _ _ Hin). now apply Shape_matchParts.
Qed.

(** What the shape matching answers: the error, or the ResourceID of the
    shape that the segments spell. *)
Lemma matchParts_cases (err : error) (parts : list string) :
  Forall (fun p => noSlash p = true) parts ->
  matchParts err parts = (None, Some err) \/
  exists r, matchParts err parts = (Some r, None) /\ Shape (Join parts "/") r.
Proof.
  intros Hall.
  destruct parts as [|p0 [|p1 [|p2 [|p3 [|p4 [|p5 [|p6 rest]]]]]]];
    try (left; reflexivity);
    unfold matchParts; cbn [nth List.length Nat.ltb Nat.leb Nat.eqb orb negb];
    repeat match goal with
           | H : Forall _ (_ :: _) |- _ => apply Forall_cons in H as [? H]
           end;
    (destruct (String.eqb_spec p0 "projects") as [->|];
       cbn [negb]; [|left; reflexivity]).
  - right. eexists. split; [reflexivity|]. now apply ShapeProject.
  - left; reflexivity.
  - destruct (String.eqb_spec p2 "regions") as [->|].
    { right. eexists. split; [reflexivity|]. now apply ShapeRegion. }
    destruct (String.eqb_spec p2 "zones") as [->|]; [|left; reflexivity].
    right. eexists. split; [reflexivity|]. now apply ShapeZone.
  - destruct (String.eqb_spec p2 "global") as [->|].
    { right. eexists. split; [reflexivity|]. now apply ShapeGlobal. }
    destruct (String.eqb_spec p2 "regions") as [->|]; [left; reflexivity|].
    destruct (String.eqb_spec p2 "zones") as [->|]; left; reflexivity.
  - destruct (String.eqb_spec p2 "global") as [->|]; [left; reflexivity|].
    destruct (String.eqb_spec p2 "regions") as [->|].
    { right. eexists. split; [reflexivity|]. now apply ShapeRegional. }
    destruct (String.eqb_spec p2 "zones") as [->|]; [|left; reflexivity].
    right. eexists. split; [reflexivity|]. now apply ShapeZonal.
  - destruct (String.eqb_spec p2 "global") as [->|]; [left; reflexivity|].
    destruct (String.eqb_spec p2 "regions") as [->|]; [left; reflexivity|].
    destruct (String.eqb_spec p2 "zones") as [->|]; left; reflexivity.
Qed.

(** C1.  Every locator of one of the six shapes, bare or behind one of the
    three known prefixes, parses without error to the ResourceID the shape
    encodes: the project, the resource type, and no key for the bare project,
    a global key for a region, a zone or a global resource, a regional or
    zonal key carrying the location for the six-segment shapes. *)
Theorem ParseResourceURL_accepts (url : string) (r : ResourceID) :
  Accepted url r ->
  ParseResourceURL url = (Some r, None) /\
  (forall r', Accepted url r' -> r' = r).
Proof.
  intros H. split; [now apply Accepted_parse|].
  intros r' H'. apply Accepted_parse in H, H'. congruence.
Qed.

Lemma ParseResourceURL_accepts_witness :
  ParseResourceURL
    "https://www.googleapis.com/compute/v1/projects/p1/zones/us-central1-b/instances/vm-1"
  = (Some (mkResourceID "p1" "instances"
             (Some (meta.ZonalKey "vm-1" "us-central1-b"))), None).
Proof.
  apply (ParseResourceURL_accepts
           "https://www.googleapis.com/compute/v1/projects/p1/zones/us-central1-b/instances/vm-1").
  right. exists gaPrefix, "projects/p1/zones/us-central1-b/instances/vm-1".
  split; [now left|]. split; [reflexivity|].
  apply (ShapeZonal "p1" "us-central1-b" "instances" "vm-1"); reflexivity.
Defined.

(** C2.  Every string that is not a locator of one of the six shapes (bare or
    behind a known prefix) is rejected: the ResourceID is nil and the error is
    the one built from the input itself. *)
Theorem ParseResourceURL_rejects (url : string) :
  (forall r, ~ Accepted url r) ->
  ParseResourceURL url = (None, Some (errNotValid url)).
Proof.
  intros Hno. unfold ParseResourceURL.
  destruct (stripPrefix_cases (errNotValid url) url allPrefixes)
    as (url' & -> & Hurl).
  destruct (matchParts_cases (errNotValid url) _ (Split_parts_noSlash url'))
    as [->|(r & _ & Hs)]; [reflexivity|].
  rewrite Join_Split in Hs. exfalso. apply (Hno r).
  destruct Hurl as [->|(p & Hp & ->)].
  - now left.
  - right. now exists p, url'.
Qed.

Lemma ParseResourceURL_rejects_witness :
  ParseResourceURL "projects/p1/global"
  = (None, Some (fmt_Errorf "%q is not a valid resource URL" "projects/p1/global")).
Proof.
  apply (ParseResourceURL_rejects "projects/p1/global").
  intros r H. apply Accepted_parse in H. vm_compute in H. discriminate H.
Defined.

(** C9.  The error return inside the prefix loop is dead code: a string that
    has a prefix is at least as long as it, so the loop always leaves with a
    (possibly trimmed) string, and the result of ParseResourceURL is the
    result of the shape matching on it. *)
Theorem stripPrefix_never_fails (url : string) :
  (forall prefix,
     HasPrefix url prefix && (String.length url <? String.length prefix)%nat
     = false) /\
  (forall err prefixes, exists url', stripPrefix err url prefixes = inr url') /\
  (exists url',
     stripPrefix (errNotValid url) url allPrefixes = inr url' /\
     ParseResourceURL url = matchParts (errNotValid url) (Split url' "/")).
Proof.
  split; [|split].
  - intros prefix. destruct (HasPrefix url prefix) eqn:Hp; [|reflexivity].
    apply HasPrefix_length, Nat.ltb_ge in Hp. exact Hp.
  - intros err prefixes.
    destruct (stripPrefix_cases err url prefixes) as (url' & H & _).
    now exists url'.
  - destruct (stripPrefix_cases (errNotValid url) url allPrefixes)
      as (url' & H & _).
    exists url'. split; [exact H|].
    unfold ParseResourceURL. now rewrite H.
Qed.

(** The cases of TestParseResourceURL that the claims name. *)
Example parse_prefix_alpha :
  ParseResourceURL
    "https://www.googleapis.com/compute/alpha/projects/some-gce-project/regions/us-central1/addresses/my-address"
  = (Some (mkResourceID "some-gce-project" "addresses"
             (Some (meta.RegionalKey "my-address" "us-central1"))), None).
Proof. reflexivity. Qed.

Example parse_rejects_listed :
  List.map (fun u => fst (ParseResourceURL u))
    [""; "/"; "a"; "/a/b/c/d/e/f"; "zones/p/global/t/n";
     "projects/some-gce-project/global";
     "projects/p/locations/l";
     "projects/some-gce-project/global/foo/bar/baz";
     "projects/some-gce-project/zones/us-central1-c/res/name/extra";
     "https://www.googleapis.com/compute/gamma/projects/some-gce-project/global/addresses/name"]
  = List.repeat None 10.
Proof. reflexivity. Qed.

(** ** The mock adapter *)

Section MockProperties.

Context {Fields Value : Type}.
Variable svc : meta.ServiceInfo.
Variable KeyString : meta.Key -> string.

Implicit Types (h : Mock.Hooks (Fields := Fields) (Value := Value)).
Implicit Types (w : Mock.World (Fields := Fields)).
Implicit Types (key : meta.Key) (obj : ptr).

Lemma insertDefault_taken key obj (m : Mock.State) p :
  Mock.InsertError m !! key = None ->
  Mock.Objects m !! key = Some p ->
  Mock.insertDefault svc KeyString key obj m
  = (Some (googleapi_Error StatusConflict (Mock.existsMessage svc KeyString key)), m).
Proof. intros He Ho. unfold Mock.insertDefault. now rewrite He, Ho. Qed.

Lemma insertDefault_free key obj (m : Mock.State) :
  Mock.InsertError m !! key = None ->
  Mock.Objects m !! key = None ->
  Mock.insertDefault svc KeyString key obj m
  = (None, Mock.mkState (<[key := obj]> (Mock.Objects m)) (Mock.GetError m)
             (Mock.ListError m) (Mock.InsertError m) (Mock.DeleteError m)).
Proof. intros He Ho. unfold Mock.insertDefault. now rewrite He, Ho. Qed.

Lemma Insert_no_hook h key obj w :
  Mock.InsertHook h = None ->
  Mock.Insert svc KeyString h key obj w
  = Mock.inMock w (Mock.insertDefault svc KeyString key obj (Mock.mock w)).
Proof. intros Hh. unfold Mock.Insert. now rewrite Hh. Qed.

Lemma Get_no_hook h key w :
  Mock.GetHook h = None ->
  Mock.Get svc KeyString h key w = (Mock.getDefault svc KeyString key (Mock.mock w), w).
Proof. intros Hh. unfold Mock.Get. now rewrite Hh. Qed.

Lemma Delete_no_hook h key w :
  Mock.DeleteHook h = None ->
  Mock.Delete svc KeyString h key w
  = Mock.inMock w (Mock.deleteDefault svc KeyString key (Mock.mock w)).
Proof. intros Hh. unfold Mock.Delete. now rewrite Hh. Qed.

Lemma inMock_same w (e : option error) : Mock.inMock w (e, Mock.mock w) = (e, w).
Proof. destruct w; reflexivity. Qed.

(** Inserting under a free key, then reading the key back. *)
Lemma Insert_free_then_Get h key obj w :
  Mock.InsertHook h = None -> Mock.GetHook h = None ->
  Mock.InsertError (Mock.mock w) !! key = None ->
  Mock.GetError (Mock.mock w) !! key = None ->
  Mock.Objects (Mock.mock w) !! key = None ->
  exists w1,
    Mock.Insert svc KeyString h key obj w = (None, w1) /\
    Mock.heap w1 = Mock.heap w /\
    Mock.Objects (Mock.mock w1) = <[key := obj]> (Mock.Objects (Mock.mock w)) /\
    Mock.InsertError (Mock.mock w1) = Mock.InsertError (Mock.mock w) /\
    Mock.Get svc KeyString h key w1 = ((obj, None), w1).
Proof.
  intros Hi Hg Hie Hge Ho.
  rewrite (Insert_no_hook _ _ _ _ Hi), (insertDefault_free _ _ _ Hie Ho).
  eexists. split; [reflexivity|]. cbn.
  repeat split. rewrite (Get_no_hook _ _ _ Hg). unfold Mock.getDefault. cbn.
  now rewrite Hge, lookup_insert_eq.
Qed.

(** C6.  With no insert hook and no injected insert error for the key, an
    insert under a key that the store already holds fails with the 409
    error whose message is made of the mock's type name and the key, and
    changes nothing; in particular a second insert after a first one that
    went through fails so, and leaves the first object in place. *)
Theorem Mock_Insert_twice h key w :
  Mock.InsertHook h = None ->
  Mock.InsertError (Mock.mock w) !! key = None ->
  (forall obj p,
     Mock.Objects (Mock.mock w) !! key = Some p ->
     Mock.Insert svc KeyString h key obj w
     = (Some (googleapi_Error 409
                (meta.MockWrapType svc +:+ " " +:+ KeyString key +:+ " exists")),
        w)) /\
  (forall obj1 obj2,
     Mock.Objects (Mock.mock w) !! key = None ->
     exists w1,
       Mock.Insert svc KeyString h key obj1 w = (None, w1) /\
       Mock.Insert svc KeyString h key obj2 w1
       = (Some (googleapi_Error 409
                  (meta.MockWrapType svc +:+ " " +:+ KeyString key +:+ " exists")),
          w1) /\
       Mock.Objects (Mock.mock w1) !! key = Some obj1).
Proof.
  intros Hh He. split.
  - intros obj p Hp.
    rewrite (Insert_no_hook _ _ _ _ Hh), (insertDefault_taken _ _ _ _ He Hp).
    apply inMock_same.
  - intros obj1 obj2 Ho.
    rewrite (Insert_no_hook _ _ _ _ Hh), (insertDefault_free _ _ _ He Ho).
    eexists. split; [reflexivity|]. cbn.
    rewrite (Insert_no_hook _ _ _ _ Hh). cbn.
    rewrite (insertDefault_taken _ _ _ obj1); cbn;
      [| exact He | apply lookup_insert_eq].
    split; [reflexivity | apply lookup_insert_eq].
Qed.

(** C7, as amended.  With no hooks and no injected errors for the key: an
    insert under a key that the store does not hold yet goes through, and a
    get of the key then returns the very pointer that was inserted, the
    objects behind the pointers being untouched; a delete of a key that the
    store holds goes through, and a get of the key then fails with the 404
    error. *)
Theorem Mock_Insert_Get_Delete_Get h key w :
  Mock.GetHook h = None -> Mock.InsertHook h = None -> Mock.DeleteHook h = None ->
  Mock.GetError (Mock.mock w) !! key = None ->
  Mock.InsertError (Mock.mock w) !! key = None ->
  Mock.DeleteError (Mock.mock w) !! key = None ->
  (forall obj,
     Mock.Objects (Mock.mock w) !! key = None ->
     exists w1,
       Mock.Insert svc KeyString h key obj w = (None, w1) /\
       Mock.Get svc KeyString h key w1 = ((obj, None), w1) /\
       Mock.heap w1 = Mock.heap w) /\
  (forall p,
     Mock.Objects (Mock.mock w) !! key = Some p ->
     exists w1,
       Mock.Delete svc KeyString h key w = (None, w1) /\
       Mock.Get svc KeyString h key w1
       = ((None,
           Some (googleapi_Error 404
                   (meta.MockWrapType svc +:+ " " +:+ KeyString key +:+ " not found"))),
          w1)).
Proof.
  intros Hg Hi Hd Hge Hie Hde. split.
  - intros obj Ho.
    destruct (Insert_free_then_Get h key obj w Hi Hg Hie Hge Ho)
      as (w1 & H1 & Hheap & _ & _ & H2).
    exists w1. auto.
  - intros p Hp.
    rewrite (Delete_no_hook _ _ _ Hd). unfold Mock.deleteDefault.
    rewrite Hde, Hp. eexists. split; [reflexivity|]. cbn.
    rewrite (Get_no_hook _ _ _ Hg). unfold Mock.getDefault. cbn.
    now rewrite Hge, lookup_delete_eq.
Qed.

(** C8.  A registered hook has first refusal.  When it answers with
    intercept set, the call returns what the hook returned and leaves the
    world as the hook left it, whatever the store and the injected errors
    hold; when it declines, the call is the call of the same mock without
    that hook, in the world the hook left. *)
Theorem Mock_hook_first_refusal
  (lh : option (Mock.World (Fields := Fields)
                -> (bool * list ptr * option error) * Mock.World))
  gh ih dh ch key obj location w :
  (forall hook,
     Mock.Get svc KeyString (Mock.mkHooks (Value := Value) (Some hook) lh ih dh ch) key w
     = let '((intercept, o, err), w') := hook key w in
       if intercept then ((o, err), w')
       else Mock.Get svc KeyString (Mock.mkHooks None lh ih dh ch) key w') /\
  (forall hook,
     Mock.List svc (Mock.mkHooks (Value := Value) gh (Some hook) ih dh ch) location w
     = let '((intercept, os, err), w') := hook w in
       if intercept then ((os, err), w')
       else Mock.List svc (Mock.mkHooks gh None ih dh ch) location w') /\
  (forall hook,
     Mock.Insert svc KeyString (Mock.mkHooks (Value := Value) gh lh (Some hook) dh ch) key obj w
     = let '((intercept, err), w') := hook key obj w in
       if intercept then (err, w')
       else Mock.Insert svc KeyString (Mock.mkHooks gh lh None dh ch) key obj w') /\
  (forall hook,
     Mock.Delete svc KeyString (Mock.mkHooks (Value := Value) gh lh ih (Some hook) ch) key w
     = let '((intercept, err), w') := hook key w in
       if intercept then (err, w')
       else Mock.Delete svc KeyString (Mock.mkHooks gh lh ih None ch) key w').
Proof.
  split; [|split; [|split]]; intros hook.
  - unfold Mock.Get; cbn. destruct (hook key w) as [[[[] o] err] w']; reflexivity.
  - unfold Mock.List; cbn. destruct (hook w) as [[[[] os] err] w']; reflexivity.
  - unfold Mock.Insert; cbn. destruct (hook key obj w) as [[[] err] w']; reflexivity.
  - unfold Mock.Delete; cbn. destruct (hook key w) as [[[] err] w']; reflexivity.
Qed.

(** C3, as amended.  A custom verb of the mock with no hook registered: when
    its return type is not Operation, it returns no value and the error that
    names the missing hook; when its return type is Operation, it returns
    nil.  Either way the world is untouched. *)
Theorem Mock_Custom_without_hook h (meth : meta.Method) key (args : list string) w :
  Mock.CustomHook h (meta.MockHookName meth) = None ->
  Mock.Custom h meth key args w
  = if meta.ReturnType meth =? "Operation"
    then (RetError None, w)
    else (RetValue None
            (Some (fmt_Errorf0 (meta.MockHookName meth +:+ " must be set"))), w).
Proof. intros Hh. unfold Mock.Custom. now rewrite Hh. Qed.

End MockProperties.

(** ** The real adapter *)

Section GCEProperties.

Context {Fields Value : Type}.
Variable svc : meta.ServiceInfo.

Implicit Types (s : GCE.Service (Fields := Fields) (Value := Value)).
Implicit Types (w : GCE.World (Fields := Fields)).
Implicit Types (key : meta.Key) (obj : ptr).

Ltac run :=
  unfold GCE.Get, GCE.List, GCE.Insert, GCE.Delete, GCE.Custom, GCE.bind,
    GCE.ret, GCE.RateLimiter_Accept, GCE.ProjectRouter_ProjectID,
    GCE.call_DoObject, GCE.call_DoValue, GCE.call_DoOperation,
    GCE.call_Pages, GCE.s_WaitForCompletion, GCE.setName, GCE.load, GCE.log;
  cbn [GCE.heap GCE.trace GCE.accept GCE.projectID GCE.doObject GCE.doValue
       GCE.doOperation GCE.pages GCE.waitForCompletion GCE.withRateLimiter].

Ltac first_is_Accept :=
  cbn [GCE.worldOf GCE.returned GCE.trace]; rewrite <- ?app_assoc;
  eexists; split; [reflexivity | try reflexivity; try discriminate].

Lemma Get_gated key : GCE.gated svc "Get" (fun s => GCE.Get svc s key).
Proof.
  intros s w. split; [|intros a; reflexivity].
  run. first_is_Accept.
Qed.

Lemma List_gated location : GCE.gated svc "List" (fun s => GCE.List svc s location).
Proof.
  intros s w. split; [|intros a; reflexivity].
  run. destruct (GCE.pages s _ _) as [items [e|]]; first_is_Accept.
Qed.

(** What Insert does with a pointer to an object. *)
Lemma Insert_outcome s key (l : loc) (o : Obj Fields) w :
  GCE.heap w !! l = Some o ->
  GCE.Insert svc s key (Some l) w
  = let o' := mkObj (meta.Name key) (Other o) in
    let tr1 := (GCE.trace w ++ [GCE.Accept (GCE.rateLimitKey svc "Insert")])%list in
    let project := GCE.projectID s tr1 (meta.Version svc) (meta.Service svc) in
    let tr2 := (tr1 ++ [GCE.ProjectID (meta.Version svc) (meta.Service svc)])%list in
    let call := GCE.newCall svc "Insert"
                  (GCE.ArgString project :: GCE.keyLocation svc key
                     ++ [GCE.ArgObject o']) in
    let tr3 := (tr2 ++ [GCE.Do call])%list in
    let hp := <[l := o']> (GCE.heap w) in
    match GCE.doOperation s tr2 call with
    | (_, Some e) => GCE.Returns (Some e) (GCE.mkWorld hp tr3)
    | (op, None) =>
        GCE.Returns (GCE.waitForCompletion s tr3 op)
          (GCE.mkWorld hp (tr3 ++ [GCE.WaitForCompletion op]))
    end.
Proof.
  intros Hl. run. cbn [mbind option_bind]. rewrite Hl.
  cbn [GCE.heap GCE.trace]. rewrite lookup_insert_eq.
  cbn [GCE.heap GCE.trace].
  destruct (GCE.doOperation s _ _) as [op [e|]]; reflexivity.
Qed.

Lemma Insert_gated key obj : GCE.gated svc "Insert" (fun s => GCE.Insert svc s key obj).
Proof.
  intros s w. split; [|intros a; reflexivity].
  destruct obj as [l|]; [|run; first_is_Accept].
  destruct (GCE.heap w !! l) as [o|] eqn:Hl.
  - rewrite (Insert_outcome _ _ _ _ _ Hl). cbv zeta.
    destruct (GCE.doOperation s _ _) as [op [e|]]; first_is_Accept.
  - run. cbn [mbind option_bind]. rewrite Hl. first_is_Accept.
Qed.

Lemma Delete_gated key : GCE.gated svc "Delete" (fun s => GCE.Delete svc s key).
Proof.
  intros s w. split; [|intros a; reflexivity].
  run. destruct (GCE.doOperation s _ _) as [op [e|]]; first_is_Accept.
Qed.

Lemma Custom_gated (meth : meta.Method) key (args : list string) :
  GCE.gated svc (meta.MethodName meth) (fun s => GCE.Custom svc s meth key args).
Proof.
  intros s w. split; [|intros a; reflexivity].
  run. destruct (meta.ReturnType meth =? "Operation").
  - destruct (GCE.doOperation s _ _) as [op [e|]]; first_is_Accept.
  - destruct (GCE.doValue s _ _) as [v e]; first_is_Accept.
Qed.

(** Every operation of the real adapter is gated, under its own name. *)
Theorem GCE_operations_gated :
  (forall key, GCE.gated (Fields := Fields) (Value := Value) svc "Get"
                 (fun s => GCE.Get svc s key)) /\
  (forall location, GCE.gated (Fields := Fields) (Value := Value) svc "List"
                      (fun s => GCE.List svc s location)) /\
  (forall key obj, GCE.gated (Fields := Fields) (Value := Value) svc "Insert"
                     (fun s => GCE.Insert svc s key obj)) /\
  (forall key, GCE.gated (Fields := Fields) (Value := Value) svc "Delete"
                 (fun s => GCE.Delete svc s key)) /\
  (forall meth key args,
     GCE.gated (Fields := Fields) (Value := Value) svc (meta.MethodName meth)
       (fun s => GCE.Custom svc s meth key args)).
Proof.
  repeat apply conj.
  - apply Get_gated.
  - apply List_gated.
  - apply Insert_gated.
  - apply Delete_gated.
  - apply Custom_gated.
Qed.

(** C4, as amended.  Every operation of the real adapter (Get, List, Insert
    of a pointer to an object, Delete and every custom verb) first calls the
    rate limiter's Accept with the RateLimitKey made of the operation's name,
    the API version and the object type, then asks the project router, then
    issues the underlying call.  What Accept answers is not looked at: the
    call is issued whatever the answer, and the operation returns what the
    call returns (for Get and a custom verb that returns a value, the value
    and the error; for List, the items of all pages or the error of the
    paging) or, for Insert, Delete and a custom verb that returns an
    Operation, the error of the call or else what the waiter returns; with
    any other rate limiter the operation does and returns the same. *)
Theorem GCE_operations_rate_limited s key (l : loc) (o : Obj Fields)
  (hp : gmap loc (Obj Fields)) (tr : list GCE.Event)
  (location : string) (meth : meta.Method) (args : list string) :
  let rk operation :=
    mkRateLimitKey operation (meta.Version svc) (meta.Object svc) in
  let asked operation :=
    (tr ++ [GCE.Accept (rk operation);
            GCE.ProjectID (meta.Version svc) (meta.Service svc)])%list in
  let project operation :=
    GCE.projectID s (tr ++ [GCE.Accept (rk operation)])
      (meta.Version svc) (meta.Service svc) in
  let place :=
    match meta.keyType svc with
    | meta.Global => []
    | meta.Regional => [GCE.ArgString (meta.Region key)]
    | meta.Zonal => [GCE.ArgString (meta.Zone key)]
    end in
  let call operation rest :=
    GCE.mkCall (meta.VersionField svc) (meta.Service svc) operation
      (GCE.ArgString (project operation) :: rest) in
  let get := call "Get" (place ++ [GCE.ArgString (meta.Name key)])%list in
  let list := call "List"
                match meta.keyType svc with
                | meta.Global => []
                | _ => [GCE.ArgString location]
                end in
  let named := mkObj (meta.Name key) (Other o) in
  let insert := call "Insert" (place ++ [GCE.ArgObject named])%list in
  let delete := call "Delete" (place ++ [GCE.ArgString (meta.Name key)])%list in
  let custom := call (meta.MethodName meth)
                  (place ++ GCE.ArgString (meta.Name key)
                     :: List.map GCE.ArgString args)%list in
  let waited operation c :=
    match GCE.doOperation s (asked operation) c with
    | (_, Some e) => (Some e, (asked operation ++ [GCE.Do c])%list)
    | (op, None) =>
        (GCE.waitForCompletion s (asked operation ++ [GCE.Do c])%list op,
         (asked operation ++ [GCE.Do c; GCE.WaitForCompletion op])%list)
    end in
  (GCE.Get svc s key (GCE.mkWorld hp tr)
   = GCE.Returns (GCE.doObject s (asked "Get") get)
       (GCE.mkWorld hp (asked "Get" ++ [GCE.Do get])%list) /\
   GCE.List svc s location (GCE.mkWorld hp tr)
   = GCE.Returns
       (match GCE.pages s (asked "List") list with
        | (_, Some e) => ([], Some e)
        | (items, None) => (concat items, None)
        end)
       (GCE.mkWorld hp (asked "List" ++ [GCE.Pages list])%list) /\
   GCE.Insert svc s key (Some l) (GCE.mkWorld (<[l := o]> hp) tr)
   = GCE.Returns (fst (waited "Insert" insert))
       (GCE.mkWorld (<[l := named]> hp) (snd (waited "Insert" insert))) /\
   GCE.Delete svc s key (GCE.mkWorld hp tr)
   = GCE.Returns (fst (waited "Delete" delete))
       (GCE.mkWorld hp (snd (waited "Delete" delete))) /\
   GCE.Custom svc s meth key args (GCE.mkWorld hp tr)
   = if meta.ReturnType meth =? "Operation"
     then GCE.Returns (RetError (fst (waited (meta.MethodName meth) custom)))
            (GCE.mkWorld hp (snd (waited (meta.MethodName meth) custom)))
     else GCE.Returns
            (RetValue (fst (GCE.doValue s (asked (meta.MethodName meth)) custom))
                      (snd (GCE.doValue s (asked (meta.MethodName meth)) custom)))
            (GCE.mkWorld hp (asked (meta.MethodName meth) ++ [GCE.Do custom])%list)) /\
  (forall a w obj,
     GCE.Get svc (GCE.withRateLimiter a s) key w = GCE.Get svc s key w /\
     GCE.List svc (GCE.withRateLimiter a s) location w = GCE.List svc s location w /\
     GCE.Insert svc (GCE.withRateLimiter a s) key obj w = GCE.Insert svc s key obj w /\
     GCE.Delete svc (GCE.withRateLimiter a s) key w = GCE.Delete svc s key w /\
     GCE.Custom svc (GCE.withRateLimiter a s) meth key args w
     = GCE.Custom svc s meth key args w).
Proof.
  intros rk asked project place call get list named insert delete custom waited.
  split; [|intros a w obj; repeat split; reflexivity].
  assert (Hplace : place = GCE.keyLocation svc key) by reflexivity.
  repeat apply conj.
  - run. subst get call asked project rk. cbv beta. rewrite Hplace.
    unfold GCE.newCall, GCE.rateLimitKey. rewrite <- !app_assoc. reflexivity.
  - run. subst list call asked project rk. cbv beta.
    unfold GCE.newCall, GCE.rateLimitKey. rewrite <- !app_assoc. cbn [app].
    destruct (GCE.pages s _ _) as [items [e|]];
      cbn [GCE.heap GCE.trace]; rewrite <- ?app_assoc; reflexivity.
  - rewrite (Insert_outcome _ _ l o) by apply lookup_insert_eq.
    cbv zeta. cbn [GCE.heap GCE.trace]. rewrite insert_insert_eq.
    subst waited insert named call asked project rk. cbv beta. rewrite Hplace.
    unfold GCE.newCall, GCE.rateLimitKey. rewrite <- !app_assoc. cbn [app].
    destruct (GCE.doOperation s _ _) as [op [e|]];
      cbn [fst snd]; rewrite <- ?app_assoc; reflexivity.
  - run. subst waited delete call asked project rk. cbv beta. rewrite Hplace.
    unfold GCE.newCall, GCE.rateLimitKey. rewrite <- !app_assoc. cbn [app].
    destruct (GCE.doOperation s _ _) as [op [e|]];
      cbn [GCE.heap GCE.trace fst snd]; rewrite <- ?app_assoc; reflexivity.
  - run. subst waited custom call asked project rk. cbv beta. rewrite Hplace.
    unfold GCE.newCall, GCE.rateLimitKey. rewrite <- !app_assoc. cbn [app].
    destruct (meta.ReturnType meth =? "Operation").
    + destruct (GCE.doOperation s _ _) as [op [e|]];
        cbn [GCE.heap GCE.trace fst snd]; rewrite <- ?app_assoc; reflexivity.
    + destruct (GCE.doValue s _ _) as [v e];
        cbn [GCE.heap GCE.trace fst snd]; rewrite <- ?app_assoc; reflexivity.
Qed.

(** C5.  Insert writes the key's name into the object, then dispatches the
    call with that object; when the call fails its error is returned at once
    and the waiter is not asked; when it succeeds the handle it returned
    goes to the waiter, and Insert returns what the waiter returns.  Delete
    dispatches, and then does the same with the error or the handle. *)
Theorem GCE_Insert_Delete_wait s key (l : loc) (o : Obj Fields)
  (hp : gmap loc (Obj Fields)) (tr : list GCE.Event) :
  let rk operation := mkRateLimitKey operation (meta.Version svc) (meta.Object svc) in
  let asked operation :=
    (tr ++ [GCE.Accept (rk operation);
            GCE.ProjectID (meta.Version svc) (meta.Service svc)])%list in
  let project operation :=
    GCE.projectID s (tr ++ [GCE.Accept (rk operation)])
      (meta.Version svc) (meta.Service svc) in
  let named := mkObj (meta.Name key) (Other o) in
  let insert := GCE.newCall svc "Insert"
                  (GCE.ArgString (project "Insert") :: GCE.keyLocation svc key
                     ++ [GCE.ArgObject named]) in
  let delete := GCE.newCall svc "Delete"
                  (GCE.ArgString (project "Delete") :: GCE.keyLocation svc key
                     ++ [GCE.ArgString (meta.Name key)]) in
  GCE.Insert svc s key (Some l) (GCE.mkWorld (<[l := o]> hp) tr)
  = (match GCE.doOperation s (asked "Insert") insert with
     | (_, Some e) =>
         GCE.Returns (Some e)
           (GCE.mkWorld (<[l := named]> hp) (asked "Insert" ++ [GCE.Do insert]))
     | (op, None) =>
         GCE.Returns
           (GCE.waitForCompletion s (asked "Insert" ++ [GCE.Do insert]) op)
           (GCE.mkWorld (<[l := named]> hp)
              (asked "Insert" ++ [GCE.Do insert; GCE.WaitForCompletion op]))
     end) /\
  GCE.Delete svc s key (GCE.mkWorld hp tr)
  = (match GCE.doOperation s (asked "Delete") delete with
     | (_, Some e) =>
         GCE.Returns (Some e)
           (GCE.mkWorld hp (asked "Delete" ++ [GCE.Do delete]))
     | (op, None) =>
         GCE.Returns
           (GCE.waitForCompletion s (asked "Delete" ++ [GCE.Do delete]) op)
           (GCE.mkWorld hp
              (asked "Delete" ++ [GCE.Do delete; GCE.WaitForCompletion op]))
     end).
Proof.
  intros rk asked project named insert delete. split.
  - rewrite (Insert_outcome _ _ l o) by apply lookup_insert_eq.
    cbv zeta. cbn [GCE.heap GCE.trace]. rewrite insert_insert_eq.
    subst rk asked project named insert delete. cbv beta.
    unfold GCE.rateLimitKey. rewrite <- !app_assoc. cbn [app].
    destruct (GCE.doOperation s _ _) as [op [e|]];
      rewrite <- ?app_assoc; reflexivity.
  - run. subst rk asked project named insert delete. cbv beta.
    unfold GCE.rateLimitKey. rewrite <- !app_assoc. cbn [app].
    destruct (GCE.doOperation s _ _) as [op [e|]];
      cbn [GCE.heap GCE.trace]; rewrite <- ?app_assoc; reflexivity.
Qed.

End GCEProperties.

(** ** Mock insert against real insert *)

(** C10.  The mock's Insert stores the caller's pointer and writes to no
    object, whatever the store holds: an object inserted under a free key,
    whatever its Name, is what a later Get returns, with the same fields.  The
    real Insert, given the same pointer, overwrites the object's Name with the
    key's. *)
Theorem Mock_Insert_keeps_object {Fields Value : Type}
  (svc : meta.ServiceInfo) (KeyString : meta.Key -> string)
  (h : Mock.Hooks (Fields := Fields) (Value := Value))
  (key : meta.Key) (l : loc) (o : Obj Fields) (w : Mock.World)
  (s : GCE.Service (Fields := Fields) (Value := Value)) (tr : list GCE.Event) :
  Mock.InsertHook h = None -> Mock.GetHook h = None ->
  Mock.heap w !! l = Some o ->
  Mock.heap (snd (Mock.Insert svc KeyString h key (Some l) w)) = Mock.heap w /\
  (Mock.InsertError (Mock.mock w) !! key = None ->
   Mock.GetError (Mock.mock w) !! key = None ->
   Mock.Objects (Mock.mock w) !! key = None ->
   exists w1,
     Mock.Insert svc KeyString h key (Some l) w = (None, w1) /\
     Mock.Objects (Mock.mock w1) !! key = Some (Some l) /\
     Mock.Get svc KeyString h key w1 = ((Some l, None), w1) /\
     Mock.heap w1 !! l = Some o) /\
  GCE.heap (GCE.worldOf (GCE.Insert svc s key (Some l) (GCE.mkWorld (Mock.heap w) tr)))
    !! l = Some (mkObj (meta.Name key) (Other o)).
Proof.
  intros Hi Hg Hl. split; [|split].
  - now rewrite (Insert_no_hook svc KeyString h key (Some l) w Hi).
  - intros Hie Hge Ho.
    destruct (Insert_free_then_Get svc KeyString h key (Some l) w Hi Hg Hie Hge Ho)
      as (w1 & H1 & Hheap & Hobjs & _ & H2).
    exists w1. repeat split; try assumption.
    + rewrite Hobjs. apply lookup_insert_eq.
    + now rewrite Hheap.
  - rewrite (Insert_outcome svc s key l o) by exact Hl. cbv zeta.
    destruct (GCE.doOperation s _ _) as [op [e|]];
      cbn [GCE.worldOf GCE.heap]; apply lookup_insert_eq.
Qed.

(** ** The properties at the sample service *)

Lemma Mock_Insert_keeps_object_witness :
  Mock.heap (snd (Mock.Insert Sample.addresses Sample.keyString Sample.noHooks
                    Sample.key (Some 2%positive) Sample.fresh))
  = Sample.objects /\
  (exists w1,
     Mock.Insert Sample.addresses Sample.keyString Sample.noHooks Sample.key
       (Some 2%positive) Sample.fresh = (None, w1) /\
     Mock.Objects (Mock.mock w1) !! Sample.key = Some (Some 2%positive) /\
     Mock.Get Sample.addresses Sample.keyString Sample.noHooks Sample.key w1
     = ((Some 2%positive, None), w1) /\
     Mock.heap w1 !! 2%positive = Some (mkObj "other-name" "10.0.0.2")) /\
  GCE.heap (GCE.worldOf (GCE.Insert Sample.addresses Sample.throttling Sample.key
                           (Some 2%positive) Sample.start))
    !! 2%positive = Some (mkObj "my-address" "10.0.0.2").
Proof.
  destruct (Mock_Insert_keeps_object Sample.addresses Sample.keyString
              Sample.noHooks Sample.key 2%positive Sample.second Sample.fresh
              Sample.throttling [] eq_refl eq_refl eq_refl) as (H1 & H2 & H3).
  split; [exact H1 | split; [exact (H2 eq_refl eq_refl eq_refl) | exact H3]].
Defined.

Lemma Mock_Insert_twice_witness :
  Mock.Insert Sample.addresses Sample.keyString Sample.noHooks Sample.key
    (Some 2%positive) Sample.taken
  = (Some (googleapi_Error 409 "MockAddresses us-central1/my-address exists"),
     Sample.taken) /\
  (exists w1,
     Mock.Insert Sample.addresses Sample.keyString Sample.noHooks Sample.key
       (Some 1%positive) Sample.fresh = (None, w1) /\
     Mock.Insert Sample.addresses Sample.keyString Sample.noHooks Sample.key
       (Some 2%positive) w1
     = (Some (googleapi_Error 409 "MockAddresses us-central1/my-address exists"),
        w1) /\
     Mock.Objects (Mock.mock w1) !! Sample.key = Some (Some 1%positive)).
Proof.
  split.
  - exact (proj1 (Mock_Insert_twice Sample.addresses Sample.keyString
                    Sample.noHooks Sample.key Sample.taken eq_refl eq_refl)
             (Some 2%positive) (Some 1%positive) eq_refl).
  - exact (proj2 (Mock_Insert_twice Sample.addresses Sample.keyString
                    Sample.noHooks Sample.key Sample.fresh eq_refl eq_refl)
             (Some 1%positive) (Some 2%positive) eq_refl).
Defined.

Lemma Mock_Insert_Get_Delete_Get_witness :
  (exists w1,
     Mock.Insert Sample.addresses Sample.keyString Sample.noHooks Sample.key
       (Some 2%positive) Sample.fresh = (None, w1) /\
     Mock.Get Sample.addresses Sample.keyString Sample.noHooks Sample.key w1
     = ((Some 2%positive, None), w1) /\
     Mock.heap w1 = Mock.heap Sample.fresh) /\
  (exists w1,
     Mock.Delete Sample.addresses Sample.keyString Sample.noHooks Sample.key
       Sample.taken = (None, w1) /\
     Mock.Get Sample.addresses Sample.keyString Sample.noHooks Sample.key w1
     = ((None,
         Some (googleapi_Error 404 "MockAddresses us-central1/my-address not found")),
        w1)).
Proof.
  split.
  - exact (proj1 (Mock_Insert_Get_Delete_Get Sample.addresses Sample.keyString
                    Sample.noHooks Sample.key Sample.fresh
                    eq_refl eq_refl eq_refl eq_refl eq_refl eq_refl)
             (Some 2%positive) eq_refl).
  - exact (proj2 (Mock_Insert_Get_Delete_Get Sample.addresses Sample.keyString
                    Sample.noHooks Sample.key Sample.taken
                    eq_refl eq_refl eq_refl eq_refl eq_refl eq_refl)
             (Some 1%positive) eq_refl).
Defined.

(** C7 as stated fails where the key is taken: the insert is refused, and the
    get returns the object that was there, not the one handed to Insert. *)
Lemma Mock_Insert_Get_taken :
  Mock.GetError (Mock.mock Sample.taken) !! Sample.key = None /\
  Mock.InsertError (Mock.mock Sample.taken) !! Sample.key = None /\
  Mock.Get Sample.addresses Sample.keyString Sample.noHooks Sample.key
    (snd (Mock.Insert Sample.addresses Sample.keyString Sample.noHooks Sample.key
            (Some 2%positive) Sample.taken))
  = ((Some 1%positive, None), Sample.taken) /\
  Sample.objects !! 1%positive <> Sample.objects !! 2%positive.
Proof. repeat split. vm_compute. discriminate. Qed.

Lemma Mock_Custom_without_hook_witness :
  Mock.Custom Sample.noHooks Sample.GetHealth Sample.key [] Sample.fresh
  = (RetValue None (Some (fmt_Errorf0 "GetHealthHook must be set")), Sample.fresh).
Proof.
  apply (Mock_Custom_without_hook Sample.noHooks Sample.GetHealth Sample.key []
           Sample.fresh eq_refl).
Defined.

(** C3 as stated fails at a verb that returns an Operation: with no hook
    registered the mock's Update returns nil. *)
Lemma Mock_Custom_Operation_succeeds :
  In Sample.Update (meta.Methods Sample.backendServices) /\
  Mock.CustomHook Sample.noHooks (meta.MockHookName Sample.Update) = None /\
  Mock.Custom Sample.noHooks Sample.Update Sample.key [] Sample.fresh
  = (RetError None, Sample.fresh).
Proof. repeat split. right. now left. Qed.

(** C4 as stated fails at a rate limiter that refuses: Get still issues the
    call and returns the transport's answer, not the refusal. *)
Lemma GCE_Get_throttled :
  GCE.accept Sample.throttling [] (GCE.rateLimitKey Sample.addresses "Get")
  = Some Sample.throttled /\
  GCE.Get Sample.addresses Sample.throttling Sample.key Sample.start
  = GCE.Returns (Some Sample.first, None)
      (GCE.mkWorld Sample.objects
         [GCE.Accept (mkRateLimitKey "Get" "ga" "Address");
          GCE.ProjectID "ga" "Addresses";
          GCE.Do (GCE.mkCall "GA" "Addresses" "Get"
                    [GCE.ArgString "some-gce-project";
                     GCE.ArgString "us-central1";
                     GCE.ArgString "my-address"])]).
Proof. split; reflexivity. Qed.

(** A hook that answers itself is believed, even for a key the store does not
    hold; without it the same call fails with 404. *)
Example Mock_Get_hook_answers :
  Mock.Get Sample.addresses Sample.keyString Sample.answering Sample.key Sample.fresh
  = ((Some 2%positive, None), Sample.fresh) /\
  Mock.Get Sample.addresses Sample.keyString Sample.noHooks Sample.key Sample.fresh
  = ((None, Some (googleapi_Error 404 "MockAddresses us-central1/my-address not found")),
     Sample.fresh).
Proof. split; reflexivity. Qed.

(** The waiter is not asked when the transport refuses the insert. *)
Example GCE_Insert_transport_error :
  GCE.Insert Sample.addresses Sample.failing Sample.key (Some 2%positive) Sample.start
  = GCE.Returns (Some (external_error "boom"))
      (GCE.mkWorld (<[2%positive := mkObj "my-address" "10.0.0.2"]> Sample.objects)
         [GCE.Accept (mkRateLimitKey "Insert" "ga" "Address");
          GCE.ProjectID "ga" "Addresses";
          GCE.Do (GCE.mkCall "GA" "Addresses" "Insert"
                    [GCE.ArgString "some-gce-project";
                     GCE.ArgString "us-central1";
                     GCE.ArgObject (mkObj "my-address" "10.0.0.2")])]).
Proof. reflexivity. Qed.


(** * Further properties of the code *)

(** ** ResourceID.Equal and ParseResourceURL *)

(** X1.  Equal decides equality of ResourceIDs: the projects and the resource
    types agree, and the keys are both nil or equal by value. *)
Theorem Equal_spec (r other : ResourceID) : Equal r other = true <-> r = other.
Proof.
  destruct r as [p t k], other as [p' t' k']. unfold Equal.
  cbn [ProjectID Resource Key].
  destruct (String.eqb_spec p p') as [->|Hp]; cbn [negb orb];
    [|split; [discriminate | intros [=]; contradiction]].
  destruct (String.eqb_spec t t') as [->|Ht]; cbn [negb];
    [|split; [discriminate | intros [=]; contradiction]].
  destruct k as [k|], k' as [k'|];
    try (split; [discriminate | intros [=]]); [|tauto].
  rewrite bool_decide_eq_true. split; [intros ->; reflexivity | intros [=]; assumption].
Qed.

(** What ParseResourceURL returns: the error for the input and no ResourceID,
    or no error and the ResourceID of a shape the input spells. *)
Lemma ParseResourceURL_cases (url : string) :
  ParseResourceURL url = (None, Some (errNotValid url)) \/
  exists r, ParseResourceURL url = (Some r, None) /\ Accepted url r.
Proof.
  unfold ParseResourceURL.
  destruct (stripPrefix_cases (errNotValid url) url allPrefixes)
    as (url' & -> & Hurl).
  destruct (matchParts_cases (errNotValid url) _ (Split_parts_noSlash url'))
    as [->|(r & -> & Hs)]; [now left | right].
  rewrite Join_Split in Hs. exists r. split; [reflexivity|].
  destruct Hurl as [->|(p & Hp & ->)]; [now left | right; now exists p, url'].
Qed.

(** X2.  ParseResourceURL never returns a ResourceID together with an error,
    nor neither of them; and a ResourceID it returns is the one that the
    input, read as one of the six shapes, encodes. *)
Theorem ParseResourceURL_result (url : string) (r : option ResourceID) (e : option error) :
  ParseResourceURL url = (r, e) ->
  (r = None /\ e = Some (errNotValid url)) \/
  (e = None /\ exists id, r = Some id /\ Accepted url id).
Proof.
  intros H. destruct (ParseResourceURL_cases url) as [E|(id & E & Hid)];
    rewrite E in H; injection H as <- <-.
  - now left.
  - right. split; [reflexivity|]. now exists id.
Qed.

Lemma ParseResourceURL_result_witness :
  (Some (mkResourceID "p1" "regions" (Some (meta.GlobalKey "r1"))) = None /\
   (None : option error) = Some (errNotValid "projects/p1/regions/r1")) \/
  ((None : option error) = None /\
   exists id, Some (mkResourceID "p1" "regions" (Some (meta.GlobalKey "r1"))) = Some id /\
              Accepted "projects/p1/regions/r1" id).
Proof.
  exact (ParseResourceURL_result "projects/p1/regions/r1" _ _ eq_refl).
Defined.

Lemma Shape_noSlash (url : string) (r : ResourceID) :
  Shape url r ->
  noSlash (ProjectID r) = true /\ noSlash (Resource r) = true /\
  match Key r with
  | None => Resource r = "projects"
  | Some k =>
      noSlash (meta.Name k) = true /\ noSlash (meta.Zone k) = true /\
      noSlash (meta.Region k) = true /\
      (meta.Zone k = "" \/ meta.Region k = "")
  end.
Proof.
  intros []; cbn; repeat split; auto.
Qed.

(** X3.  No field of a parsed ResourceID holds a slash; its key, when there
    is one, has at most one of a zone and a region; and it has no key only
    when it stands for a project. *)
Theorem ParseResourceURL_fields (url : string) (r : ResourceID) (e : option error) :
  ParseResourceURL url = (Some r, e) ->
  noSlash (ProjectID r) = true /\ noSlash (Resource r) = true /\
  match Key r with
  | None => Resource r = "projects"
  | Some k =>
      noSlash (meta.Name k) = true /\ noSlash (meta.Zone k) = true /\
      noSlash (meta.Region k) = true /\
      (meta.Zone k = "" \/ meta.Region k = "")
  end.
Proof.
  intros H. destruct (ParseResourceURL_cases url) as [E|(id & E & Hid)];
    rewrite E in H; [discriminate|]. injection H as <- _.
  destruct Hid as [Hs|(p & path & _ & _ & Hs)]; exact (Shape_noSlash _ _ Hs).
Qed.

Lemma ParseResourceURL_fields_witness :
  noSlash "p1" = true /\ noSlash "instances" = true /\
  noSlash "vm-1" = true /\ noSlash "us-central1-b" = true /\ noSlash "" = true /\
  ("us-central1-b" = "" \/ "" = "").
Proof.
  exact (ParseResourceURL_fields
           "projects/p1/zones/us-central1-b/instances/vm-1"
           (mkResourceID "p1" "instances" (Some (meta.ZonalKey "vm-1" "us-central1-b")))
           None eq_refl).
Defined.

Lemma stripPrefix_none (err : error) (url : string) (prefixes : list string) :
  forallb (fun q => negb (HasPrefix url q)) prefixes = true ->
  stripPrefix err url prefixes = inr url.
Proof.
  induction prefixes as [|q qs IH]; [reflexivity|]. cbn [forallb stripPrefix].
  intros H. apply andb_true_iff in H as [Hq Hqs].
  apply negb_true_iff in Hq. rewrite Hq. now apply IH.
Qed.

(** The error handed to the shape matching only shows in the error it
    returns. *)
Lemma matchParts_err (err err' : error) (parts : list string) :
  matchParts err parts
  = (fst (matchParts err' parts),
     match snd (matchParts err' parts) with Some _ => Some err | None => None end).
Proof.
  unfold matchParts.
  repeat match goal with
         | |- context [if ?b then _ else _] => destruct b; try reflexivity
         end.
Qed.

Lemma Equal_refl (r : ResourceID) : Equal r r = true.
Proof.
  destruct r as [p t [k|]]; unfold Equal; cbn [ProjectID Resource Key];
    rewrite !String.eqb_refl; cbn [negb orb]; [|reflexivity].
  now apply bool_decide_eq_true.
Qed.

(** X4.  A known prefix makes no difference to the ResourceID: for a path
    that does not itself start with a known prefix, the path and the path
    behind a known prefix parse to the same ResourceID, equal under Equal,
    or are both rejected. *)
Theorem ParseResourceURL_prefix_irrelevant (prefix path : string) :
  In prefix allPrefixes ->
  forallb (fun q => negb (HasPrefix path q)) allPrefixes = true ->
  fst (ParseResourceURL (prefix +:+ path)) = fst (ParseResourceURL path) /\
  (snd (ParseResourceURL (prefix +:+ path)) = None <->
   snd (ParseResourceURL path) = None) /\
  (forall r, fst (ParseResourceURL path) = Some r ->
     exists r', fst (ParseResourceURL (prefix +:+ path)) = Some r' /\
                Equal r' r = true).
Proof.
  intros Hin Hno. unfold ParseResourceURL.
  rewrite (stripPrefix_known _ _ _ Hin), (stripPrefix_none _ _ _ Hno).
  rewrite (matchParts_err (errNotValid (prefix +:+ path)) (errNotValid path)).
  cbn [fst snd].
  destruct (matchParts (errNotValid path) (Split path "/")) as [r [e|]];
    cbn [fst snd]; (split; [reflexivity|]); (split; [split; intros; congruence|]);
    intros id ->; exists id; (split; [reflexivity|]); apply Equal_refl.
Qed.

Lemma ParseResourceURL_prefix_irrelevant_witness :
  fst (ParseResourceURL (betaPrefix +:+ "projects/p1/global/networks/n1"))
  = fst (ParseResourceURL "projects/p1/global/networks/n1") /\
  (snd (ParseResourceURL (betaPrefix +:+ "projects/p1/global/networks/n1")) = None <->
   snd (ParseResourceURL "projects/p1/global/networks/n1") = None) /\
  (forall r, fst (ParseResourceURL "projects/p1/global/networks/n1") = Some r ->
     exists r', fst (ParseResourceURL (betaPrefix +:+ "projects/p1/global/networks/n1"))
                = Some r' /\ Equal r' r = true).
Proof.
  apply (ParseResourceURL_prefix_irrelevant betaPrefix "projects/p1/global/networks/n1").
  - right. right. now left.
  - reflexivity.
Defined.

Lemma append_assoc (a b c : string) : (a +:+ b) +:+ c = a +:+ (b +:+ c).
Proof.
  induction a as [|x a IH]; [reflexivity|].
  rewrite !append_String. now rewrite IH.
Qed.

Lemma first_part_not_projects (err : error) (p : string) (ps : list string) :
  p <> "projects" -> matchParts err (p :: ps) = (None, Some err).
Proof.
  intros Hp. unfold matchParts. cbn [nth].
  destruct (String.eqb_spec p "projects") as [|_]; [contradiction|].
  cbn [negb]. now rewrite orb_true_r.
Qed.

(** X5.  The prefix is removed once only: a locator behind two known
    prefixes is rejected, whatever follows them. *)
Theorem ParseResourceURL_double_prefix (p q rest : string) :
  In p allPrefixes -> In q allPrefixes ->
  ParseResourceURL (p +:+ q +:+ rest)
  = (None, Some (errNotValid (p +:+ q +:+ rest))).
Proof.
  intros Hp Hq. unfold ParseResourceURL.
  rewrite (stripPrefix_known _ _ _ Hp).
  assert (Hsplit : exists ps, Split (q +:+ rest) "/" = "https:" :: ps).
  { unfold allPrefixes in Hq. destruct Hq as [<-|[<-|[<-|[]]]].
    - change (gaPrefix +:+ rest)
        with ("https:" +:+ String "/" ("/www.googleapis.com/compute/v1/" +:+ rest)).
      rewrite Split_segment by reflexivity. eauto.
    - change (alphaPrefix +:+ rest)
        with ("https:" +:+ String "/" ("/www.googleapis.com/compute/alpha/" +:+ rest)).
      rewrite Split_segment by reflexivity. eauto.
    - change (betaPrefix +:+ rest)
        with ("https:" +:+ String "/" ("/www.googleapis.com/compute/beta/" +:+ rest)).
      rewrite Split_segment by reflexivity. eauto. }
  destruct Hsplit as [ps ->]. now apply first_part_not_projects.
Qed.

Lemma ParseResourceURL_double_prefix_witness :
  ParseResourceURL (gaPrefix +:+ alphaPrefix +:+ "projects/p1")
  = (None, Some (errNotValid (gaPrefix +:+ alphaPrefix +:+ "projects/p1"))).
Proof.
  apply ParseResourceURL_double_prefix; [now left | right; now left].
Defined.

(** X6.  A locator that starts with a slash is rejected: its first segment is
    empty, not "projects". *)
Theorem ParseResourceURL_leading_slash (rest : string) :
  ParseResourceURL (String "/" rest)
  = (None, Some (errNotValid (String "/" rest))).
Proof.
  unfold ParseResourceURL.
  rewrite stripPrefix_none by (cbn [forallb allPrefixes]; rewrite !HasPrefix_prefix; reflexivity).
  cbn [Split]. rewrite Ascii.eqb_refl. now apply first_part_not_projects.
Qed.

Lemma Split_trailing_slash (s : string) :
  Split (s +:+ "/") "/" = (Split s "/" ++ [EmptyString])%list.
Proof.
  induction s as [|c s IH]; [reflexivity|].
  rewrite append_String. cbn [Split]. rewrite IH.
  destruct (Ascii.eqb c "/"); [reflexivity|].
  destruct (Split s "/") as [|p ps] eqn:Hs; [now apply Split_nonempty in Hs|].
  reflexivity.
Qed.

(** One more, empty segment turns every accepted list of segments into a
    rejected one. *)
Lemma matchParts_one_more (err err' : error) (parts : list string) (r : ResourceID) :
  matchParts err parts = (Some r, None) ->
  matchParts err' (parts ++ [EmptyString]) = (None, Some err').
Proof.
  destruct parts as [|p0 [|p1 [|p2 [|p3 [|p4 [|p5 [|p6 rest]]]]]]];
    unfold matchParts;
    cbn [app nth List.length Nat.ltb Nat.leb Nat.eqb orb negb];
    repeat match goal with
           | |- context [String.eqb ?a ?b] =>
               destruct (String.eqb_spec a b); subst;
               cbn [app nth List.length Nat.ltb Nat.leb Nat.eqb orb negb]
           end;
    try discriminate; try reflexivity.
Qed.

(** X7.  A trailing slash is never tolerated: an accepted locator followed by
    a slash is rejected. *)
Theorem ParseResourceURL_trailing_slash (url : string) (r : ResourceID) :
  Accepted url r ->
  ParseResourceURL (url +:+ "/") = (None, Some (errNotValid (url +:+ "/"))).
Proof.
  intros [Hs | (prefix & path & Hin & -> & Hs)]; unfold ParseResourceURL.
  - destruct (Shape_projects _ _ Hs) as [x Hx]. rewrite Hx at 2.
    change (("projects/" +:+ x) +:+ "/") with ("projects/" +:+ (x +:+ "/")).
    rewrite stripPrefix_bare.
    change ("projects/" +:+ (x +:+ "/")) with (("projects/" +:+ x) +:+ "/").
    rewrite <- Hx, Split_trailing_slash.
    exact (matchParts_one_more _ _ _ _ (Shape_matchParts (errNotValid url) _ _ Hs)).
  - rewrite append_assoc at 2. rewrite (stripPrefix_known _ _ _ Hin).
    rewrite Split_trailing_slash.
    exact (matchParts_one_more _ _ _ _ (Shape_matchParts (errNotValid path) _ _ Hs)).
Qed.

Lemma ParseResourceURL_trailing_slash_witness :
  ParseResourceURL "projects/p1/global/networks/n1/"
  = (None, Some (errNotValid "projects/p1/global/networks/n1/")).
Proof.
  apply (ParseResourceURL_trailing_slash "projects/p1/global/networks/n1"
           (mkResourceID "p1" "networks" (Some (meta.GlobalKey "n1")))).
  left. apply (ShapeGlobal "p1" "networks" "n1"); reflexivity.
Defined.

(** ** The mock adapter: errors, absent keys, other keys, round trips *)

Section MockMore.

Context {Fields Value : Type}.
Variable svc : meta.ServiceInfo.
Variable KeyString : meta.Key -> string.

Implicit Types (h : Mock.Hooks (Fields := Fields) (Value := Value)).
Implicit Types (w : Mock.World (Fields := Fields)).
Implicit Types (key : meta.Key) (obj : ptr).

(** X8.  An injected error wins over the store: with no hook, an entry for
    the key in GetError, InsertError or DeleteError makes the operation
    return that entry (a nil entry included) and leave the mock as it was,
    whether or not the store holds the key.  So an Insert with a nil entry
    reports success and stores nothing. *)
Theorem Mock_injected_error_first h key obj w (e : option error) :
  (Mock.GetHook h = None -> Mock.GetError (Mock.mock w) !! key = Some e ->
   Mock.Get svc KeyString h key w = ((None, e), w)) /\
  (Mock.InsertHook h = None -> Mock.InsertError (Mock.mock w) !! key = Some e ->
   Mock.Insert svc KeyString h key obj w = (e, w)) /\
  (Mock.DeleteHook h = None -> Mock.DeleteError (Mock.mock w) !! key = Some e ->
   Mock.Delete svc KeyString h key w = (e, w)).
Proof.
  split; [|split]; intros Hh He.
  - rewrite (Get_no_hook _ _ _ _ _ Hh). unfold Mock.getDefault. now rewrite He.
  - rewrite (Insert_no_hook _ _ _ _ _ _ Hh). unfold Mock.insertDefault.
    rewrite He. apply inMock_same.
  - rewrite (Delete_no_hook _ _ _ _ _ Hh). unfold Mock.deleteDefault.
    rewrite He. apply inMock_same.
Qed.

(** X9.  With no hooks and no injected errors for the key, a key that the
    store does not hold gives the 404 error on Get and on Delete, and neither
    changes the mock. *)
Theorem Mock_absent_key h key w :
  Mock.GetHook h = None -> Mock.DeleteHook h = None ->
  Mock.GetError (Mock.mock w) !! key = None ->
  Mock.DeleteError (Mock.mock w) !! key = None ->
  Mock.Objects (Mock.mock w) !! key = None ->
  Mock.Get svc KeyString h key w
  = ((None, Some (googleapi_Error 404 (Mock.notFoundMessage svc KeyString key))), w) /\
  Mock.Delete svc KeyString h key w
  = (Some (googleapi_Error 404 (Mock.notFoundMessage svc KeyString key)), w).
Proof.
  intros Hg Hd Hge Hde Ho. split.
  - rewrite (Get_no_hook _ _ _ _ _ Hg). unfold Mock.getDefault. now rewrite Hge, Ho.
  - rewrite (Delete_no_hook _ _ _ _ _ Hd). unfold Mock.deleteDefault.
    rewrite Hde, Ho. apply inMock_same.
Qed.

(** X10.  Delete is not idempotent: with no delete hook and no injected delete
    error, deleting a key that the store holds succeeds, and deleting it
    again gives the 404 error. *)
Theorem Mock_Delete_twice h key w (p : ptr) :
  Mock.DeleteHook h = None ->
  Mock.DeleteError (Mock.mock w) !! key = None ->
  Mock.Objects (Mock.mock w) !! key = Some p ->
  exists w1,
    Mock.Delete svc KeyString h key w = (None, w1) /\
    Mock.Objects (Mock.mock w1) = delete key (Mock.Objects (Mock.mock w)) /\
    Mock.Delete svc KeyString h key w1
    = (Some (googleapi_Error 404 (Mock.notFoundMessage svc KeyString key)), w1).
Proof.
  intros Hd Hde Hp. rewrite (Delete_no_hook _ _ _ _ _ Hd).
  unfold Mock.deleteDefault at 1. rewrite Hde, Hp.
  eexists. split; [reflexivity|]. cbn. split; [reflexivity|].
  rewrite (Delete_no_hook _ _ _ _ _ Hd). unfold Mock.deleteDefault. cbn.
  now rewrite Hde, lookup_delete_eq.
Qed.

Lemma insertDefault_other key key' obj (m : Mock.State) :
  key <> key' ->
  let m' := snd (Mock.insertDefault svc KeyString key obj m) in
  Mock.Objects m' !! key' = Mock.Objects m !! key' /\
  Mock.GetError m' = Mock.GetError m /\ Mock.InsertError m' = Mock.InsertError m /\
  Mock.DeleteError m' = Mock.DeleteError m /\ Mock.ListError m' = Mock.ListError m.
Proof.
  intros Hne. unfold Mock.insertDefault.
  destruct (Mock.InsertError m !! key); [now cbn|].
  destruct (Mock.Objects m !! key); cbn; [tauto|].
  now rewrite lookup_insert_ne.
Qed.

Lemma deleteDefault_other key key' (m : Mock.State) :
  key <> key' ->
  let m' := snd (Mock.deleteDefault svc KeyString key m) in
  Mock.Objects m' !! key' = Mock.Objects m !! key' /\
  Mock.GetError m' = Mock.GetError m /\ Mock.InsertError m' = Mock.InsertError m /\
  Mock.DeleteError m' = Mock.DeleteError m /\ Mock.ListError m' = Mock.ListError m.
Proof.
  intros Hne. unfold Mock.deleteDefault.
  destruct (Mock.DeleteError m !! key); [now cbn|].
  destruct (Mock.Objects m !! key); cbn; [|tauto].
  now rewrite lookup_delete_ne.
Qed.

(** X11.  An Insert or a Delete of one key, whether it succeeds or fails,
    changes nothing for any other key: with no hooks, a Get of another key
    returns afterwards what it returned before. *)
Theorem Mock_other_keys h key key' obj w :
  key <> key' ->
  Mock.GetHook h = None -> Mock.InsertHook h = None -> Mock.DeleteHook h = None ->
  fst (Mock.Get svc KeyString h key' (snd (Mock.Insert svc KeyString h key obj w)))
  = fst (Mock.Get svc KeyString h key' w) /\
  fst (Mock.Get svc KeyString h key' (snd (Mock.Delete svc KeyString h key w)))
  = fst (Mock.Get svc KeyString h key' w).
Proof.
  intros Hne Hg Hi Hd.
  rewrite (Insert_no_hook _ _ _ _ _ _ Hi), (Delete_no_hook _ _ _ _ _ Hd).
  rewrite !(Get_no_hook _ _ _ _ _ Hg). cbn [fst snd Mock.inMock Mock.mock].
  unfold Mock.getDefault. split.
  - destruct (insertDefault_other key key' obj (Mock.mock w) Hne) as (-> & -> & _).
    reflexivity.
  - destruct (deleteDefault_other key key' (Mock.mock w) Hne) as (-> & -> & _).
    reflexivity.
Qed.

(** X12.  Insert, Get, Delete, as the sample program runs them: on a mock
    with no hooks and no injected errors for the key, and a key that the store
    does not hold, the three calls succeed in turn, Get returns the inserted
    pointer, and the mock ends exactly as it began. *)
Theorem Mock_Insert_Get_Delete h key obj w :
  Mock.GetHook h = None -> Mock.InsertHook h = None -> Mock.DeleteHook h = None ->
  Mock.GetError (Mock.mock w) !! key = None ->
  Mock.InsertError (Mock.mock w) !! key = None ->
  Mock.DeleteError (Mock.mock w) !! key = None ->
  Mock.Objects (Mock.mock w) !! key = None ->
  exists w1,
    Mock.Insert svc KeyString h key obj w = (None, w1) /\
    Mock.Get svc KeyString h key w1 = ((obj, None), w1) /\
    Mock.Delete svc KeyString h key w1 = (None, w).
Proof.
  intros Hg Hi Hd Hge Hie Hde Ho.
  rewrite (Insert_no_hook _ _ _ _ _ _ Hi), (insertDefault_free _ _ _ _ _ Hie Ho).
  eexists. split; [reflexivity|]. cbn. split.
  - rewrite (Get_no_hook _ _ _ _ _ Hg). unfold Mock.getDefault. cbn.
    now rewrite Hge, lookup_insert_eq.
  - rewrite (Delete_no_hook _ _ _ _ _ Hd). unfold Mock.deleteDefault. cbn.
    rewrite Hde, lookup_insert_eq. cbn.
    rewrite delete_insert_id by exact Ho. now destruct w as [hp []].
Qed.

(** X13.  Delete and Insert back: on a mock with no hooks and no injected
    errors for the key, deleting a key that the store holds and inserting the
    pointer it held again both succeed and give the mock as it began. *)
Theorem Mock_Delete_Insert h key w (p : ptr) :
  Mock.InsertHook h = None -> Mock.DeleteHook h = None ->
  Mock.InsertError (Mock.mock w) !! key = None ->
  Mock.DeleteError (Mock.mock w) !! key = None ->
  Mock.Objects (Mock.mock w) !! key = Some p ->
  exists w1,
    Mock.Delete svc KeyString h key w = (None, w1) /\
    Mock.Insert svc KeyString h key p w1 = (None, w).
Proof.
  intros Hi Hd Hie Hde Hp.
  rewrite (Delete_no_hook _ _ _ _ _ Hd). unfold Mock.deleteDefault.
  rewrite Hde, Hp. eexists. split; [reflexivity|]. cbn.
  rewrite (Insert_no_hook _ _ _ _ _ _ Hi). unfold Mock.insertDefault. cbn.
  rewrite Hie, lookup_delete_eq. cbn.
  rewrite insert_delete_id by exact Hp. now destruct w as [hp []].
Qed.

End MockMore.

(** ** The mock adapter: List *)

Lemma fmap_map {A B : Type} (f : A -> B) (l : list A) : f <$> l = List.map f l.
Proof. induction l as [|x l IH]; [reflexivity|]. cbn. now rewrite IH. Qed.

Lemma NoDup_map_fst_filter {A B : Type} (f : A * B -> bool) (l : list (A * B)) :
  NoDup (List.map fst l) -> NoDup (List.map fst (List.filter f l)).
Proof.
  induction l as [|x l IH]; cbn; [auto|].
  intros H. apply NoDup_cons in H as [Hx Hl].
  destruct (f x); cbn; [|auto].
  apply NoDup_cons. split; [|auto].
  intros Hin. apply Hx. apply list_elem_of_In in Hin. apply list_elem_of_In.
  apply in_map_iff in Hin as (y & Hy & Hin). apply filter_In in Hin as [Hin _].
  apply in_map_iff. now exists y.
Qed.

Lemma filter_length_Permutation {A : Type} (f : A -> bool) (l l' : list A) :
  Permutation l l' ->
  List.length (List.filter f l) = List.length (List.filter f l').
Proof.
  induction 1 as [|x l l' _ IH|x y l|l l' l'' _ IH1 _ IH2]; cbn.
  - reflexivity.
  - destruct (f x); cbn; now rewrite IH.
  - destruct (f x), (f y); reflexivity.
  - now rewrite IH1.
Qed.

Section MockList.

Context {Fields Value : Type}.
Variable svc : meta.ServiceInfo.

Implicit Types (h : Mock.Hooks (Fields := Fields) (Value := Value)).
Implicit Types (w : Mock.World (Fields := Fields)).

Lemma List_no_hook h location w :
  Mock.ListHook h = None ->
  Mock.List svc h location w = (Mock.listDefault svc location (Mock.mock w), w).
Proof. intros Hh. unfold Mock.List. now rewrite Hh. Qed.

(** What the location filter of List decides. *)
Lemma listKeeps_spec (location : string) (key : meta.Key) :
  Mock.listKeeps svc location key = true <->
  match meta.keyType svc with
  | meta.Global => True
  | meta.Regional => meta.Region key = location
  | meta.Zonal => meta.Zone key = location
  end.
Proof.
  unfold Mock.listKeeps. destruct (meta.keyType svc).
  - tauto.
  - apply String.eqb_eq.
  - apply String.eqb_eq.
Qed.

(** X14.  What List returns with no hook.  When ListError is set, no object
    and the error it points to (a nil error included), whatever the store
    holds.  Otherwise, with no error, the pointers of exactly the entries of
    the store that the location selects, one for each such key: every entry
    for a global service, the entries whose key has the given region for a
    regional one, the entries whose key has the given zone for a zonal
    one. *)
Theorem Mock_List_result h location w :
  Mock.ListHook h = None ->
  (forall e, Mock.ListError (Mock.mock w) = Some e ->
     Mock.List svc h location w = (([], e), w)) /\
  (Mock.ListError (Mock.mock w) = None ->
   exists kvs : list (meta.Key * ptr),
     Mock.List svc h location w = ((List.map snd kvs, None), w) /\
     NoDup (List.map fst kvs) /\
     forall key p,
       In (key, p) kvs <->
       Mock.Objects (Mock.mock w) !! key = Some p /\
       match meta.keyType svc with
       | meta.Global => True
       | meta.Regional => meta.Region key = location
       | meta.Zonal => meta.Zone key = location
       end).
Proof.
  intros Hh. rewrite (List_no_hook _ _ _ Hh). unfold Mock.listDefault. split.
  - intros e ->. reflexivity.
  - intros ->. eexists. split; [reflexivity|]. split.
    + apply NoDup_map_fst_filter. rewrite <- fmap_map.
      apply NoDup_fst_map_to_list.
    + intros key p. rewrite filter_In, <- list_elem_of_In, elem_of_map_to_list.
      cbn [fst]. now rewrite listKeeps_spec.
Qed.

(** X15.  The List of a global service returns every stored pointer,
    whatever location it is given and whatever zone or region the keys
    carry: as many pointers as the store has entries. *)
Theorem Mock_List_global h location w :
  meta.keyType svc = meta.Global ->
  Mock.ListHook h = None -> Mock.ListError (Mock.mock w) = None ->
  exists objs,
    Mock.List svc h location w = ((objs, None), w) /\
    List.length objs = size (Mock.Objects (Mock.mock w)) /\
    forall p, In p objs <-> exists key, Mock.Objects (Mock.mock w) !! key = Some p.
Proof.
  intros Hk Hh He. rewrite (List_no_hook _ _ _ Hh). unfold Mock.listDefault.
  rewrite He. eexists. split; [reflexivity|].
  assert (Hall : List.filter (fun kv : meta.Key * ptr => Mock.listKeeps svc location kv.1)
                   (map_to_list (Mock.Objects (Mock.mock w)))
                 = map_to_list (Mock.Objects (Mock.mock w))).
  { unfold Mock.listKeeps. rewrite Hk.
    induction (map_to_list (Mock.Objects (Mock.mock w))) as [|x l IH];
      [reflexivity|]. cbn. now rewrite IH. }
  rewrite Hall. split.
  - rewrite List.length_map. apply length_map_to_list.
  - intros p. rewrite in_map_iff. split.
    + intros ([key q] & <- & Hin). exists key.
      now apply elem_of_map_to_list, list_elem_of_In.
    + intros [key Hkey]. exists (key, p). split; [reflexivity|].
      now apply list_elem_of_In, elem_of_map_to_list.
Qed.

(** X16.  Insert shows in List: after an Insert under a key that the store
    did not hold (no hooks, no injected errors), List returns one more
    pointer than before when the location keeps the key, the inserted pointer
    among them, and as many as before when it does not. *)
Theorem Mock_List_after_Insert (KeyString : meta.Key -> string)
  h (key : meta.Key) (obj : ptr) location w :
  Mock.ListHook h = None -> Mock.InsertHook h = None ->
  Mock.ListError (Mock.mock w) = None ->
  Mock.InsertError (Mock.mock w) !! key = None ->
  Mock.Objects (Mock.mock w) !! key = None ->
  let before := fst (fst (Mock.List svc h location w)) in
  let after :=
    fst (fst (Mock.List svc h location
                (snd (Mock.Insert svc KeyString h key obj w)))) in
  if Mock.listKeeps svc location key
  then List.length after = S (List.length before) /\ In obj after
  else List.length after = List.length before.
Proof.
  intros Hl Hi Hle Hie Ho before after. subst before after.
  rewrite (Insert_no_hook _ _ _ _ _ _ Hi), (insertDefault_free _ _ _ _ _ Hie Ho).
  rewrite !(List_no_hook _ _ _ Hl). unfold Mock.listDefault.
  cbn [fst snd Mock.inMock Mock.mock Mock.ListError Mock.Objects]. rewrite Hle.
  cbn [fst]. rewrite !List.length_map.
  pose proof (map_to_list_insert (Mock.Objects (Mock.mock w)) key obj Ho) as Hperm.
  rewrite (filter_length_Permutation _ _ _ Hperm). cbn [List.filter fst].
  destruct (Mock.listKeeps svc location key) eqn:Hkeep; [|reflexivity].
  split; [reflexivity|].
  apply in_map_iff. exists (key, obj). split; [reflexivity|].
  apply filter_In. split; [|exact Hkeep].
  apply list_elem_of_In, elem_of_map_to_list, lookup_insert_eq.
Qed.

End MockList.

(** ** The real adapter: conversations, results, the caller's objects *)

Section GCEMore.

Context {Fields Value : Type}.
Variable svc : meta.ServiceInfo.

Implicit Types (s : GCE.Service (Fields := Fields) (Value := Value)).
Implicit Types (w : GCE.World (Fields := Fields)).
Implicit Types (key : meta.Key) (obj : ptr).

Ltac run :=
  unfold GCE.Get, GCE.List, GCE.Insert, GCE.Delete, GCE.Custom, GCE.bind,
    GCE.ret, GCE.RateLimiter_Accept, GCE.ProjectRouter_ProjectID,
    GCE.call_DoObject, GCE.call_DoValue, GCE.call_DoOperation,
    GCE.call_Pages, GCE.s_WaitForCompletion, GCE.setName, GCE.load, GCE.log;
  cbn [GCE.heap GCE.trace].

Ltac conversation :=
  cbn [GCE.worldOf GCE.returned GCE.trace GCE.heap]; rewrite <- ?app_assoc;
  eexists; (split; [reflexivity|]); cbn [app];
  first [ apply ConversationCut
        | apply ConversationCall; reflexivity
        | apply ConversationWait ].

Lemma Insert_nil s key w :
  GCE.Insert svc s key None w
  = GCE.Panics
      (GCE.mkWorld (GCE.heap w)
         (GCE.trace w ++ [GCE.Accept (GCE.rateLimitKey svc "Insert");
                          GCE.ProjectID (meta.Version svc) (meta.Service svc)])).
Proof. run. cbn [mbind option_bind]. now rewrite <- app_assoc. Qed.

Lemma Insert_dangling s key (l : loc) w :
  GCE.heap w !! l = None ->
  GCE.Insert svc s key (Some l) w
  = GCE.Panics
      (GCE.mkWorld (GCE.heap w)
         (GCE.trace w ++ [GCE.Accept (GCE.rateLimitKey svc "Insert");
                          GCE.ProjectID (meta.Version svc) (meta.Service svc)])).
Proof.
  intros Hl. run. cbn [mbind option_bind]. rewrite Hl. now rewrite <- app_assoc.
Qed.

(** X17.  One operation, one conversation: each of Get, List, Insert, Delete
    and the custom verbs asks the rate limiter once, then the project router
    once with the service's version and name, then makes exactly one
    transport call, and asks the waiter at most once and only after the call;
    it never retries.  An Insert that panics stops before the call. *)
Theorem GCE_conversations :
  (forall key, converses (Fields := Fields) (Value := Value) svc "Get"
                 (fun s => GCE.Get svc s key)) /\
  (forall location, converses (Fields := Fields) (Value := Value) svc "List"
                      (fun s => GCE.List svc s location)) /\
  (forall key obj, converses (Fields := Fields) (Value := Value) svc "Insert"
                     (fun s => GCE.Insert svc s key obj)) /\
  (forall key, converses (Fields := Fields) (Value := Value) svc "Delete"
                 (fun s => GCE.Delete svc s key)) /\
  (forall meth key args,
     converses (Fields := Fields) (Value := Value) svc (meta.MethodName meth)
       (fun s => GCE.Custom svc s meth key args)).
Proof.
  repeat apply conj.
  - intros key s w. run. conversation.
  - intros location s w. run.
    destruct (GCE.pages s _ _) as [items [e|]]; conversation.
  - intros key [l|] s w; [|rewrite Insert_nil; conversation].
    destruct (GCE.heap w !! l) as [o|] eqn:Hl;
      [|rewrite (Insert_dangling _ _ _ _ Hl); conversation].
    rewrite (Insert_outcome svc s key l o w Hl). cbv zeta.
    destruct (GCE.doOperation s _ _) as [op [e|]]; conversation.
  - intros key s w. run.
    destruct (GCE.doOperation s _ _) as [op [e|]]; conversation.
  - intros meth key args s w. run.
    destruct (meta.ReturnType meth =? "Operation").
    + destruct (GCE.doOperation s _ _) as [op [e|]]; conversation.
    + destruct (GCE.doValue s _ _) as [v e]; conversation.
Qed.

(** X18.  An Insert given a nil pointer panics: the rate limiter and the
    project router have been asked, no transport call is made and no object
    is touched. *)
Theorem GCE_Insert_nil_panics s key w :
  GCE.Insert svc s key None w
  = GCE.Panics
      (GCE.mkWorld (GCE.heap w)
         (GCE.trace w ++ [GCE.Accept (mkRateLimitKey "Insert" (meta.Version svc) (meta.Object svc));
                          GCE.ProjectID (meta.Version svc) (meta.Service svc)])).
Proof. apply Insert_nil. Qed.

(** X19.  List returns no partial result: when fetching the pages fails, it
    returns no item and the error, dropping the pages fetched before the
    failure; when it does not, it returns the items of all the pages, in
    order. *)
Theorem GCE_List_pages s location w :
  exists w' call,
    GCE.callMethod call = "List" /\
    GCE.List svc s location w
    = GCE.Returns
        (match GCE.pages s (GCE.trace w ++
                              [GCE.Accept (GCE.rateLimitKey svc "List");
                               GCE.ProjectID (meta.Version svc) (meta.Service svc)])
                 call with
         | (_, Some e) => ([], Some e)
         | (items, None) => (concat items, None)
         end) w' /\
    GCE.heap w' = GCE.heap w.
Proof.
  run. rewrite <- !app_assoc. cbn [app].
  match goal with
  | |- context [GCE.pages s _ ?c] => set (call := c)
  end.
  destruct (GCE.pages s _ call) as [items [e|]] eqn:Hp;
    eexists; exists call; rewrite Hp; (split; [reflexivity|]);
    split; reflexivity.
Qed.

(** X20.  A custom verb follows the discipline of its return type.  When it
    returns an Operation: an error of the call is returned at once and the
    waiter is not asked, otherwise the handle goes to the waiter and the
    verb returns what the waiter returns.  Otherwise the verb returns the
    value and the error of the call as they are and the waiter is never
    asked. *)
Theorem GCE_Custom_result s (meth : meta.Method) key (args : list string) w :
  let asked :=
    (GCE.trace w ++ [GCE.Accept (GCE.rateLimitKey svc (meta.MethodName meth));
                     GCE.ProjectID (meta.Version svc) (meta.Service svc)])%list in
  let project :=
    GCE.projectID s (GCE.trace w ++ [GCE.Accept (GCE.rateLimitKey svc (meta.MethodName meth))])
      (meta.Version svc) (meta.Service svc) in
  let call := GCE.newCall svc (meta.MethodName meth)
                (GCE.ArgString project :: GCE.keyLocation svc key
                   ++ GCE.ArgString (meta.Name key) :: List.map GCE.ArgString args) in
  GCE.Custom svc s meth key args w
  = if meta.ReturnType meth =? "Operation" then
      match GCE.doOperation s asked call with
      | (_, Some e) =>
          GCE.Returns (RetError (Some e))
            (GCE.mkWorld (GCE.heap w) (asked ++ [GCE.Do call]))
      | (op, None) =>
          GCE.Returns (RetError (GCE.waitForCompletion s (asked ++ [GCE.Do call]) op))
            (GCE.mkWorld (GCE.heap w)
               (asked ++ [GCE.Do call; GCE.WaitForCompletion op]))
      end
    else
      GCE.Returns (RetValue (fst (GCE.doValue s asked call))
                            (snd (GCE.doValue s asked call)))
        (GCE.mkWorld (GCE.heap w) (asked ++ [GCE.Do call])).
Proof.
  intros asked project call. subst asked project call. run.
  rewrite <- !app_assoc. cbn [app].
  destruct (meta.ReturnType meth =? "Operation").
  - destruct (GCE.doOperation s _ _) as [op [e|]];
      cbn [GCE.heap GCE.trace]; rewrite <- ?app_assoc; reflexivity.
  - destruct (GCE.doValue s _ _) as [v e];
      cbn [GCE.heap GCE.trace fst snd]; rewrite <- ?app_assoc; reflexivity.
Qed.

(** X21.  The caller's objects: Get, List, Delete and the custom verbs write
    to no object; Insert writes to the object it is given only, and to its
    Name only. *)
Theorem GCE_objects_frame s w :
  (forall key, GCE.heap (GCE.worldOf (GCE.Get svc s key w)) = GCE.heap w) /\
  (forall location, GCE.heap (GCE.worldOf (GCE.List svc s location w)) = GCE.heap w) /\
  (forall key, GCE.heap (GCE.worldOf (GCE.Delete svc s key w)) = GCE.heap w) /\
  (forall meth key args,
     GCE.heap (GCE.worldOf (GCE.Custom svc s meth key args w)) = GCE.heap w) /\
  (forall key obj (l : loc),
     obj <> Some l ->
     GCE.heap (GCE.worldOf (GCE.Insert svc s key obj w)) !! l = GCE.heap w !! l) /\
  (forall key (l : loc),
     Other <$> (GCE.heap (GCE.worldOf (GCE.Insert svc s key (Some l) w)) !! l)
     = Other <$> (GCE.heap w !! l)).
Proof.
  repeat apply conj.
  - intros key. reflexivity.
  - intros location. run. now destruct (GCE.pages s _ _) as [items [e|]].
  - intros key. run. now destruct (GCE.doOperation s _ _) as [op [e|]].
  - intros meth key args. run. destruct (meta.ReturnType meth =? "Operation").
    + now destruct (GCE.doOperation s _ _) as [op [e|]].
    + now destruct (GCE.doValue s _ _) as [v e].
  - intros key [l'|] l Hne; [|now rewrite Insert_nil].
    destruct (GCE.heap w !! l') as [o|] eqn:Hl;
      [|now rewrite (Insert_dangling _ _ _ _ Hl)].
    rewrite (Insert_outcome svc s key l' o w Hl). cbv zeta.
    destruct (GCE.doOperation s _ _) as [op [e|]];
      cbn [GCE.worldOf GCE.heap]; apply lookup_insert_ne; congruence.
  - intros key l.
    destruct (GCE.heap w !! l) as [o|] eqn:Hl;
      [|rewrite (Insert_dangling _ _ _ _ Hl); cbn [GCE.worldOf GCE.heap];
        now rewrite Hl].
    rewrite (Insert_outcome svc s key l o w Hl). cbv zeta.
    destruct (GCE.doOperation s _ _) as [op [e|]];
      cbn [GCE.worldOf GCE.heap]; now rewrite lookup_insert_eq.
Qed.

End GCEMore.

(** ** The generator: genHeader *)

Lemma fold_seen (l : list meta.ServiceInfo) (hasGA hasAlpha hasBeta : bool) :
  fold_left gen.seen l (hasGA, hasAlpha, hasBeta)
  = (hasGA || existsb (fun s => meta.Version s =? gen.VersionGA) l,
     hasAlpha || existsb (fun s => meta.Version s =? gen.VersionAlpha) l,
     hasBeta || existsb (fun s => meta.Version s =? gen.VersionBeta) l).
Proof.
  revert hasGA hasAlpha hasBeta.
  induction l as [|s l IH]; intros hasGA hasAlpha hasBeta; cbn [fold_left existsb].
  - now rewrite !orb_false_r.
  - unfold gen.seen at 2.
    destruct (String.eqb_spec (meta.Version s) gen.VersionGA) as [E|_];
      [rewrite IH, ?E; cbn; now rewrite orb_true_r|].
    destruct (String.eqb_spec (meta.Version s) gen.VersionAlpha) as [E|_];
      [rewrite IH, ?E; cbn; now rewrite orb_true_r|].
    destruct (String.eqb_spec (meta.Version s) gen.VersionBeta) as [E|_];
      [rewrite IH, ?E; cbn; now rewrite orb_true_r|].
    rewrite IH. reflexivity.
Qed.

(** X22.  genHeader writes the file header, then the import of the alpha, of
    the beta and of the GA client library, in this order, each one exactly
    when some service has that version and once however many do, then the
    closing parenthesis; it writes nothing else. *)
Theorem genHeader_imports (AllServices : list meta.ServiceInfo) (wr : list string) :
  let has version := existsb (fun s => meta.Version s =? version) AllServices in
  gen.genHeader AllServices wr
  = (wr ++ [gen.fileHeader +:+ gen.nl]
        ++ (if has "alpha" then [gen.alphaImport +:+ gen.nl] else [])
        ++ (if has "beta" then [gen.betaImport +:+ gen.nl] else [])
        ++ (if has "ga" then [gen.gaImport +:+ gen.nl] else [])
        ++ [")" +:+ gen.nl])%list.
Proof.
  intros has. subst has. unfold gen.genHeader. rewrite fold_seen.
  cbn [orb]. unfold gen.Fprintln, gen.VersionGA, gen.VersionAlpha, gen.VersionBeta.
  destruct (existsb (fun s => meta.Version s =? "alpha") AllServices),
           (existsb (fun s => meta.Version s =? "beta") AllServices),
           (existsb (fun s => meta.Version s =? "ga") AllServices);
    rewrite <- ?app_assoc; reflexivity.
Qed.

(** ** The further properties at the sample service *)

Lemma Equal_spec_witness :
  Equal (mkResourceID "p1" "zones" (Some (meta.GlobalKey "z1")))
        (mkResourceID "p1" "zones" (Some (meta.GlobalKey "z1"))) = true.
Proof. exact (proj2 (Equal_spec _ _) eq_refl). Defined.

Lemma Mock_injected_error_first_witness :
  Mock.Get Sample.addresses Sample.keyString Sample.noHooks Sample.key Scenario.broken
  = ((None, Some Scenario.boom), Scenario.broken) /\
  Mock.Insert Sample.addresses Sample.keyString Sample.noHooks Sample.key
    (Some 2%positive) Scenario.broken
  = (None, Scenario.broken) /\
  Mock.Delete Sample.addresses Sample.keyString Sample.noHooks Sample.key Scenario.broken
  = (Some Scenario.boom, Scenario.broken).
Proof.
  split; [|split].
  - exact (proj1 (Mock_injected_error_first Sample.addresses Sample.keyString
                    Sample.noHooks Sample.key None Scenario.broken (Some Scenario.boom))
             eq_refl eq_refl).
  - exact (proj1 (proj2 (Mock_injected_error_first Sample.addresses Sample.keyString
                    Sample.noHooks Sample.key (Some 2%positive) Scenario.broken None))
             eq_refl eq_refl).
  - exact (proj2 (proj2 (Mock_injected_error_first Sample.addresses Sample.keyString
                    Sample.noHooks Sample.key None Scenario.broken (Some Scenario.boom)))
             eq_refl eq_refl).
Defined.

Lemma Mock_absent_key_witness :
  Mock.Get Sample.addresses Sample.keyString Sample.noHooks Sample.key Sample.fresh
  = ((None, Some (googleapi_Error 404 "MockAddresses us-central1/my-address not found")),
     Sample.fresh) /\
  Mock.Delete Sample.addresses Sample.keyString Sample.noHooks Sample.key Sample.fresh
  = (Some (googleapi_Error 404 "MockAddresses us-central1/my-address not found"),
     Sample.fresh).
Proof.
  exact (Mock_absent_key Sample.addresses Sample.keyString Sample.noHooks
           Sample.key Sample.fresh eq_refl eq_refl eq_refl eq_refl eq_refl).
Defined.

Lemma Mock_Delete_twice_witness :
  exists w1,
    Mock.Delete Sample.addresses Sample.keyString Sample.noHooks Sample.key Sample.taken
    = (None, w1) /\
    Mock.Objects (Mock.mock w1) = delete Sample.key (Mock.Objects (Mock.mock Sample.taken)) /\
    Mock.Delete Sample.addresses Sample.keyString Sample.noHooks Sample.key w1
    = (Some (googleapi_Error 404 "MockAddresses us-central1/my-address not found"), w1).
Proof.
  exact (Mock_Delete_twice Sample.addresses Sample.keyString Sample.noHooks
           Sample.key Sample.taken (Some 1%positive) eq_refl eq_refl eq_refl).
Defined.

Lemma Mock_other_keys_witness :
  fst (Mock.Get Sample.addresses Sample.keyString Sample.noHooks Scenario.other
         (snd (Mock.Insert Sample.addresses Sample.keyString Sample.noHooks
                 Sample.key (Some 2%positive) Scenario.two)))
  = fst (Mock.Get Sample.addresses Sample.keyString Sample.noHooks Scenario.other
           Scenario.two) /\
  fst (Mock.Get Sample.addresses Sample.keyString Sample.noHooks Scenario.other
         (snd (Mock.Delete Sample.addresses Sample.keyString Sample.noHooks
                 Sample.key Scenario.two)))
  = fst (Mock.Get Sample.addresses Sample.keyString Sample.noHooks Scenario.other
           Scenario.two).
Proof.
  apply (Mock_other_keys Sample.addresses Sample.keyString Sample.noHooks
           Sample.key Scenario.other (Some 2%positive) Scenario.two);
    [discriminate | reflexivity | reflexivity | reflexivity].
Defined.

Lemma Mock_Insert_Get_Delete_witness :
  exists w1,
    Mock.Insert Sample.addresses Sample.keyString Sample.noHooks Sample.key
      (Some 1%positive) Sample.fresh = (None, w1) /\
    Mock.Get Sample.addresses Sample.keyString Sample.noHooks Sample.key w1
    = ((Some 1%positive, None), w1) /\
    Mock.Delete Sample.addresses Sample.keyString Sample.noHooks Sample.key w1
    = (None, Sample.fresh).
Proof.
  exact (Mock_Insert_Get_Delete Sample.addresses Sample.keyString Sample.noHooks
           Sample.key (Some 1%positive) Sample.fresh
           eq_refl eq_refl eq_refl eq_refl eq_refl eq_refl eq_refl).
Defined.

Lemma Mock_Delete_Insert_witness :
  exists w1,
    Mock.Delete Sample.addresses Sample.keyString Sample.noHooks Sample.key Sample.taken
    = (None, w1) /\
    Mock.Insert Sample.addresses Sample.keyString Sample.noHooks Sample.key
      (Some 1%positive) w1 = (None, Sample.taken).
Proof.
  exact (Mock_Delete_Insert Sample.addresses Sample.keyString Sample.noHooks
           Sample.key Sample.taken (Some 1%positive)
           eq_refl eq_refl eq_refl eq_refl eq_refl).
Defined.

Lemma Mock_List_result_witness :
  Mock.List Sample.addresses Sample.noHooks "us-central1" Scenario.broken
  = (([], Some Scenario.boom), Scenario.broken) /\
  exists kvs : list (meta.Key * ptr),
    Mock.List Sample.addresses Sample.noHooks "us-central1" Scenario.two
    = ((List.map snd kvs, None), Scenario.two) /\
    NoDup (List.map fst kvs) /\
    forall key p,
      In (key, p) kvs <->
      Mock.Objects (Mock.mock Scenario.two) !! key = Some p /\
      meta.Region key = "us-central1".
Proof.
  split.
  - exact (proj1 (Mock_List_result Sample.addresses Sample.noHooks "us-central1"
                    Scenario.broken eq_refl) (Some Scenario.boom) eq_refl).
  - exact (proj2 (Mock_List_result Sample.addresses Sample.noHooks "us-central1"
                    Scenario.two eq_refl) eq_refl).
Defined.

Lemma Mock_List_global_witness :
  exists objs,
    Mock.List Sample.backendServices Sample.noHooks "anywhere" Scenario.two
    = ((objs, None), Scenario.two) /\
    List.length objs = size (Mock.Objects (Mock.mock Scenario.two)) /\
    forall p, In p objs <-> exists key, Mock.Objects (Mock.mock Scenario.two) !! key = Some p.
Proof.
  exact (Mock_List_global Sample.backendServices Sample.noHooks "anywhere"
           Scenario.two eq_refl eq_refl eq_refl).
Defined.

Lemma Mock_List_after_Insert_witness :
  List.length
    (fst (fst (Mock.List Sample.addresses Sample.noHooks "us-central1"
                 (snd (Mock.Insert Sample.addresses Sample.keyString Sample.noHooks
                         Sample.key (Some 1%positive) Sample.fresh)))))
  = S (List.length
         (fst (fst (Mock.List Sample.addresses Sample.noHooks "us-central1" Sample.fresh)))) /\
  In (Some 1%positive)
    (fst (fst (Mock.List Sample.addresses Sample.noHooks "us-central1"
                 (snd (Mock.Insert Sample.addresses Sample.keyString Sample.noHooks
                         Sample.key (Some 1%positive) Sample.fresh))))).
Proof.
  exact (Mock_List_after_Insert Sample.addresses Sample.keyString Sample.noHooks
           Sample.key (Some 1%positive) "us-central1" Sample.fresh
           eq_refl eq_refl eq_refl eq_refl eq_refl).
Defined.

Lemma GCE_objects_frame_witness :
  GCE.heap (GCE.worldOf (GCE.Insert Sample.addresses Sample.throttling Sample.key
                           (Some 2%positive) Sample.start)) !! 1%positive
  = Some Sample.first.
Proof.
  apply (proj1 (proj2 (proj2 (proj2 (proj2
           (GCE_objects_frame Sample.addresses Sample.throttling Sample.start)))))
           Sample.key (Some 2%positive) 1%positive).
  discriminate.
Defined.
